(** * Meeting cost calculator: shared timer, participant registry, cost accrual

    A shallow embedding of [src/App.js].  The React component keeps a local
    mirror of one Firestore document (the session record) and issues
    [setDoc] writes from its event handlers.  Here:

    - the Firestore document is a record of optional fields (a field can be
      missing from a document that was created by a merge-write);
    - a handler is a pure function from the component's local state and the
      environment (the two clocks) to the store request it issues;
    - [setDoc] is interpreted on a one-document store, with and without
      [{merge: true}], the [serverTimestamp()] sentinel being resolved by the
      store with the server's clock; a snapshot shows the record as the
      server holds it, once the write is committed;
    - seconds, ids and hourly rates are integers ([Timestamp.seconds],
      [Date.now()] and the entries of [JOB_ROLES] are), so they are [Z]: the
      JS arithmetic on them is exact below 2^53;
    - costs are JS numbers obtained by a division: binary64 floating point
      ([Number_float]), which is the arithmetic the code runs; the interface
      [Number] has a second instance, exact rationals, which never rounds
      and stands for the real numbers the costs approximate;
    - the initialisation effect is a function of what the Teams SDK answers
      and of the two environment variables, [JSON.parse] and the Firebase
      calls being parameters (what they return or whether they throw);
    - the view is chosen from [isLoading] and [error], which the
      initialisation and the snapshot listener set;
    - [formatTime] works on the integer seconds the component displays. *)

From Stdlib Require Import ZArith QArith List String Ascii Bool Lia.
From Stdlib Require Import Floats.PrimFloat Numbers.Cyclic.Int63.Uint63.
From Stdlib Require DecimalString.
Import ListNotations.

Local Open Scope string_scope.
Local Open Scope Z_scope.

(** ** Strings

    A JS string whose code units are all below 256 is a [string]; on those,
    the white space and line terminators removed by [String.prototype.trim]
    are exactly TAB, LF, VT, FF, CR, SP and NBSP. *)

Definition isWhiteSpace (c : ascii) : bool :=
  match N_of_ascii c with
  | 9%N | 10%N | 11%N | 12%N | 13%N | 32%N | 160%N => true
  | _ => false
  end.

Fixpoint trimStart (s : string) : string :=
  match s with
  | EmptyString => EmptyString
  | String c s' => if isWhiteSpace c then trimStart s' else s
  end.

Definition reverse (s : string) : string :=
  string_of_list_ascii (rev (list_ascii_of_string s)).

Definition trimEnd (s : string) : string := reverse (trimStart (reverse s)).

Definition trim (s : string) : string := trimEnd (trimStart s).

(** [!s] on a string: only the empty string is falsy. *)
Definition falsy (s : string) : bool :=
  match s with EmptyString => true | String _ _ => false end.

(** ** Configuration: [JOB_ROLES] *)

Definition JOB_ROLES : list (string * Z) :=
  [ ("Executive (C-Suite)", 250);
    ("Director / VP", 175);
    ("Senior Manager", 140);
    ("Project Manager", 110);
    ("Senior Software Engineer", 125);
    ("Software Engineer", 90);
    ("UX/UI Designer", 85);
    ("Quality Assurance Analyst", 75);
    ("Marketing Specialist", 70);
    ("Intern / Junior Staff", 35) ].

(** [Object.keys(JOB_ROLES)] *)
Definition JOB_ROLES_keys : list string := map fst JOB_ROLES.

Fixpoint own_property (k : string) (o : list (string * Z)) : option Z :=
  match o with
  | [] => None
  | (k', r) :: o' => if String.eqb k k' then Some r else own_property k o'
  end.

(** The property names every object literal inherits from [Object.prototype]:
    [JOB_ROLES[k]] is defined for them, but has no [rate]. *)
Definition Object_prototype_names : list string :=
  [ "constructor"; "__defineGetter__"; "__defineSetter__"; "hasOwnProperty";
    "__lookupGetter__"; "__lookupSetter__"; "isPrototypeOf";
    "propertyIsEnumerable"; "toString"; "valueOf"; "__proto__";
    "toLocaleString" ].

Definition inherited_property (k : string) : bool :=
  existsb (String.eqb k) Object_prototype_names.

(** What [JOB_ROLES[k]] evaluates to. *)
Inductive RoleLookup : Type :=
| RoleEntry (rate : Z)   (* an own key: [{ rate: r }] *)
| Inherited              (* a member of [Object.prototype] *)
| Undefined.

Definition JOB_ROLES_get (k : string) : RoleLookup :=
  match own_property k JOB_ROLES with
  | Some r => RoleEntry r
  | None => if inherited_property k then Inherited else Undefined
  end.

(** ** Clocks and timestamps *)

Record Timestamp : Type := mkTimestamp { seconds : Z; nanoseconds : Z }.

(** The environment of a handler call: the client's wall clock, as
    [Date.now()] reads it (milliseconds), and the instant the server assigns
    to a write committed now. *)
Record Env : Type := mkEnv { Date_now : Z; server_time : Timestamp }.

(** Firestore's [Timestamp.fromMillis]; [Z.div] by a positive number is
    [Math.floor] of the quotient. *)
Definition Timestamp_fromMillis (ms : Z) : Timestamp :=
  let s := ms / 1000 in
  {| seconds := s; nanoseconds := (ms - s * 1000) * 1000000 |}.

(** [Timestamp.now()] is [Timestamp.fromMillis(Date.now())]: the local clock. *)
Definition Timestamp_now (env : Env) : Timestamp :=
  Timestamp_fromMillis (Date_now env).

(** ** Participants and the session document *)

Record Participant : Type := mkParticipant {
  id : Z;
  name : string;
  role : string;
  rate : Z
}.

Definition DocRef : Type := string.

(** A stored document.  A field is [None] when the document lacks it;
    [doc_startTime = Some None] is the field holding [null]. *)
Record Doc : Type := mkDoc {
  doc_participants : option (list Participant);
  doc_isRunning : option bool;
  doc_accumulatedSeconds : option Z;
  doc_startTime : option (option Timestamp)
}.

(** What the handlers put in a [startTime] field. *)
Inductive TimeValue : Type :=
| NullTime           (* [null] *)
| ServerTimestamp.   (* the sentinel [serverTimestamp()] *)

(** The data argument of [setDoc]: the fields the object literal names. *)
Record DocData : Type := mkData {
  data_participants : option (list Participant);
  data_isRunning : option bool;
  data_accumulatedSeconds : option Z;
  data_startTime : option TimeValue
}.

Inductive Error : Type :=
| TypeError          (* reading [.rate] of [undefined] *)
| InvalidArgument.   (* [setDoc] refusing a field that is [undefined] *)

(** What a handler call does to the outside world. *)
Inductive Effect : Type :=
| Return
| SetDoc (ref : option DocRef) (data : DocData) (merge : bool)
| Throw (e : Error).

(** ** The store: [setDoc] on one document *)

Definition resolve (env : Env) (v : TimeValue) : option Timestamp :=
  match v with
  | NullTime => None
  | ServerTimestamp => Some (server_time env)
  end.

Definition written (env : Env) (data : DocData) : Doc :=
  {| doc_participants := data_participants data;
     doc_isRunning := data_isRunning data;
     doc_accumulatedSeconds := data_accumulatedSeconds data;
     doc_startTime := option_map (resolve env) (data_startTime data) |}.

Definition overwrite {A : Type} (new old : option A) : option A :=
  match new with
  | Some v => Some v
  | None => old
  end.

Definition no_fields : Doc :=
  {| doc_participants := None; doc_isRunning := None;
     doc_accumulatedSeconds := None; doc_startTime := None |}.

Definition merge_fields (old new : Doc) : Doc :=
  {| doc_participants := overwrite (doc_participants new) (doc_participants old);
     doc_isRunning := overwrite (doc_isRunning new) (doc_isRunning old);
     doc_accumulatedSeconds :=
       overwrite (doc_accumulatedSeconds new) (doc_accumulatedSeconds old);
     doc_startTime := overwrite (doc_startTime new) (doc_startTime old) |}.

Definition Store : Type := option Doc.

Definition setDoc (env : Env) (store : Store) (data : DocData) (merge : bool)
  : Store :=
  if merge then
    Some (merge_fields (match store with Some d => d | None => no_fields end)
                       (written env data))
  else Some (written env data).

(** A request reaches the store only through a document reference. *)
Definition commit (env : Env) (store : Store) (eff : Effect) : Store :=
  match eff with
  | SetDoc (Some _) data merge => setDoc env store data merge
  | _ => store
  end.

(** ** The component's local state *)

Record Local : Type := mkLocal {
  meetingDocRef : option DocRef;
  participants : list Participant;
  isRunning : bool;
  accumulatedSeconds : Z;
  startTime : option Timestamp;
  newName : string;
  newRole : string
}.

(** The record written on first access and by reset. *)
Definition emptyRecord : DocData :=
  {| data_participants := Some [];
     data_isRunning := Some false;
     data_accumulatedSeconds := Some 0;
     data_startTime := Some NullTime |}.

(** [x || d] on a field that may be missing. *)
Definition or_default {A : Type} (x : option A) (d : A) : A :=
  match x with Some v => v | None => d end.

(** [data.isRunning || false] *)
Definition snapshot_isRunning (d : Doc) : bool := or_default (doc_isRunning d) false.

(** [data.startTime || null] *)
Definition snapshot_startTime (d : Doc) : option Timestamp :=
  or_default (doc_startTime d) None.

(** The [onSnapshot] callback. *)
Definition onSnapshot (l : Local) (docSnap : Store) : Local * Effect :=
  match docSnap with
  | Some data =>
      ({| meetingDocRef := meetingDocRef l;
          participants := or_default (doc_participants data) [];
          isRunning := snapshot_isRunning data;
          accumulatedSeconds := or_default (doc_accumulatedSeconds data) 0;
          startTime := snapshot_startTime data;
          newName := newName l;
          newRole := newRole l |}, Return)
  | None => (l, SetDoc (meetingDocRef l) emptyRecord false)
  end.

(** The component as it is mounted: the initial values of its [useState]
    cells. *)
Definition initialState : Local :=
  {| meetingDocRef := None;
     participants := [];
     isRunning := false;
     accumulatedSeconds := 0;
     startTime := None;
     newName := "";
     newRole := hd "" JOB_ROLES_keys |}.

(** ** Write handlers *)

(** Returns the request issued and the local state once the awaited
    [setDoc] has resolved: the name field of the form is cleared then.  While
    the write is pending, or when it is rejected, the statement after the
    [await] does not run: see [handleAddParticipant_settled]. *)
Definition handleAddParticipant (l : Local) (env : Env) : Effect * Local :=
  if falsy (trim (newName l)) || falsy (newRole l)
     || match meetingDocRef l with None => true | Some _ => false end
  then (Return, l)
  else
    match JOB_ROLES_get (newRole l) with
    | Undefined => (Throw TypeError, l)
    | Inherited => (Throw InvalidArgument, l)
    | RoleEntry r =>
        let newParticipant :=
          {| id := Date_now env; name := trim (newName l);
             role := newRole l; rate := r |} in
        (SetDoc (meetingDocRef l)
           {| data_participants := Some (participants l ++ [newParticipant])%list;
              data_isRunning := None;
              data_accumulatedSeconds := None;
              data_startTime := None |} true,
         {| meetingDocRef := meetingDocRef l;
            participants := participants l;
            isRunning := isRunning l;
            accumulatedSeconds := accumulatedSeconds l;
            startTime := startTime l;
            newName := "";
            newRole := newRole l |})
    end.

(** What becomes of the promise [setDoc] returns. *)
Inductive WriteOutcome : Type :=
| Resolved
| Rejected
| Pending.

(** The add handler with the awaited write settled one way or the other:
    [setNewName('')] runs after the [await], so only when the write
    resolved. *)
Definition handleAddParticipant_settled (l : Local) (env : Env)
    (outcome : WriteOutcome) : Effect * Local :=
  match outcome with
  | Resolved => handleAddParticipant l env
  | Rejected | Pending => (fst (handleAddParticipant l env), l)
  end.

(** [participants.filter(p => p.id !== id)], merge-written. *)
Definition handleRemoveParticipant (l : Local) (i : Z) : Effect :=
  SetDoc (meetingDocRef l)
    {| data_participants :=
         Some (filter (fun p => negb (id p =? i)) (participants l));
       data_isRunning := None;
       data_accumulatedSeconds := None;
       data_startTime := None |} true.

(** [setDoc] of the four fields, without the merge option. *)
Definition handleReset (l : Local) : Effect :=
  SetDoc (meetingDocRef l) emptyRecord false.

(** Start and stop are the two branches of one handler, behind one guard on
    the participant sequence. *)
Definition handleToggleTimer (l : Local) (env : Env) : Effect :=
  match participants l with
  | [] => Return
  | _ :: _ =>
      if isRunning l then
        let elapsedSinceStart :=
          match startTime l with
          | Some st => seconds (Timestamp_now env) - seconds st
          | None => 0
          end in
        SetDoc (meetingDocRef l)
          {| data_participants := None;
             data_isRunning := Some false;
             data_accumulatedSeconds :=
               Some (accumulatedSeconds l + elapsedSinceStart);
             data_startTime := Some NullTime |} true
      else
        SetDoc (meetingDocRef l)
          {| data_participants := None;
             data_isRunning := Some true;
             data_accumulatedSeconds := None;
             data_startTime := Some ServerTimestamp |} true
  end.

(** ** Cost calculation

    The interface of the JS numbers that carry a cost, and its two readings. *)

Class Number (N : Type) : Type := {
  num_of_Z : Z -> N;
  num_add : N -> N -> N;
  num_mul : N -> N -> N;
  num_div : N -> N -> N
}.

(** Exact arithmetic: no operation rounds.  The code does not compute in
    it; it gives the real-number value that a binary64 cost approximates. *)
#[export] Instance Number_Q : Number Q :=
  {| num_of_Z := inject_Z; num_add := Qplus; num_mul := Qmult; num_div := Qdiv |}.

(** Exact for integers of magnitude below 2^53. *)
Definition float_of_Z (z : Z) : float :=
  match z with
  | Z0 => PrimFloat.zero
  | Zpos _ => PrimFloat.of_uint63 (Uint63.of_Z z)
  | Zneg p => PrimFloat.opp (PrimFloat.of_uint63 (Uint63.of_Z (Zpos p)))
  end.

(** The arithmetic of the code: IEEE 754 binary64, round to nearest. *)
#[export] Instance Number_float : Number float :=
  {| num_of_Z := float_of_Z; num_add := PrimFloat.add;
     num_mul := PrimFloat.mul; num_div := PrimFloat.div |}.

(** The two state variables [calculateCosts] sets. *)
Record Derived (N : Type) : Type := mkDerived {
  elapsedSeconds : Z;
  totalCost : N
}.
Arguments mkDerived {N} _ _.
Arguments elapsedSeconds {N} _.
Arguments totalCost {N} _.

Section CostAccrual.
Context {N : Type} `{Number N}.

Definition calculateCosts (l : Local) (env : Env) : Derived N :=
  let currentElapsed :=
    match isRunning l, startTime l with
    | true, Some st =>
        accumulatedSeconds l + (seconds (Timestamp_now env) - seconds st)
    | _, _ => accumulatedSeconds l
    end in
  let totalRatePerSecond :=
    fold_left
      (fun acc p => num_add acc (num_div (num_of_Z (rate p)) (num_of_Z 3600)))
      (participants l) (num_of_Z 0) in
  {| elapsedSeconds := currentElapsed;
     totalCost := num_mul totalRatePerSecond (num_of_Z currentElapsed) |}.

Definition getParticipantCost (d : Derived N) (r : Z) : N :=
  num_mul (num_div (num_of_Z r) (num_of_Z 3600)) (num_of_Z (elapsedSeconds d)).
End CostAccrual.

(** ** The derived values as the specification words them *)

(** [accumulatedSeconds + (isRunning ? (now - startAnchor) : 0)], on a timer
    whose anchor is present when it runs. *)
Definition spec_elapsedSeconds (acc : Z) (running : bool)
    (anchor : option Timestamp) (now : Timestamp) : option Z :=
  if running then
    match anchor with
    | Some a => Some (acc + (seconds now - seconds a))
    | None => None
    end
  else Some (acc + 0).

(** [(p.rate / 3600) * elapsedSeconds] *)
Definition spec_perParticipantCost (p : Participant) (elapsed : Z) : Q :=
  (inject_Z (rate p) / inject_Z 3600 * inject_Z elapsed)%Q.

(** The sum over the participants of their costs. *)
Fixpoint spec_totalCost (ps : list Participant) (elapsed : Z) : Q :=
  match ps with
  | [] => 0%Q
  | p :: ps' => (spec_perParticipantCost p elapsed + spec_totalCost ps' elapsed)%Q
  end.

(** The seconds of the running segment: [now - startTime] when the timer
    runs and has its anchor, 0 otherwise. *)
Definition running_segment (l : Local) (now : Timestamp) : Z :=
  if isRunning l then
    match startTime l with
    | Some a => seconds now - seconds a
    | None => 0
    end
  else 0.

(** The sum of the participants' rates per second, [rate / 3600] each,
    added one after the other to 0 in the order of the sequence. *)
Definition rates_per_second {N : Type} `{Number N} (ps : list Participant)
  : list N :=
  map (fun p => num_div (num_of_Z (rate p)) (num_of_Z 3600)) ps.

Definition sum_in_order {N : Type} `{Number N} (xs : list N) : N :=
  fold_left num_add xs (num_of_Z 0).

(** [kept] is [whole] with some participants left out, the others in their
    order. *)
Inductive in_order : list Participant -> list Participant -> Prop :=
| in_order_nil : in_order [] []
| in_order_keep : forall p kept whole,
    in_order kept whole -> in_order (p :: kept) (p :: whole)
| in_order_drop : forall p kept whole,
    in_order kept whole -> in_order kept (p :: whole).

(** ** The shared record under the calls of any number of clients

    A client calls a handler on its local state, which mirrors some earlier
    snapshot and can be stale; so a step of the shared record is the commit
    of the request any handler issues from any local state, under any
    clocks. *)

Inductive Call : Type :=
| ToggleTimer
| Reset
| AddParticipant
| RemoveParticipant (i : Z)
| Snapshot (docSnap : Store).

Definition request (c : Call) (l : Local) (env : Env) : Effect :=
  match c with
  | ToggleTimer => handleToggleTimer l env
  | Reset => handleReset l
  | AddParticipant => fst (handleAddParticipant l env)
  | RemoveParticipant i => handleRemoveParticipant l i
  | Snapshot docSnap => snd (onSnapshot l docSnap)
  end.

(** The default session record: no participant, stopped, nothing
    accumulated, no anchor. *)
Definition defaultSessionRecord : Doc :=
  {| doc_participants := Some [];
     doc_isRunning := Some false;
     doc_accumulatedSeconds := Some 0;
     doc_startTime := Some None |}.

Inductive reachable : Store -> Prop :=
| reachable_absent : reachable None
| reachable_default : reachable (Some defaultSessionRecord)
| reachable_call : forall (s : Store) (c : Call) (l : Local) (env : Env),
    reachable s -> reachable (commit env s (request c l env)).

(** The anchor is present exactly when the timer runs, as a client reads
    the record. *)
Definition timer_invariant (d : Doc) : Prop :=
  snapshot_isRunning d = true <-> snapshot_startTime d <> None.

(** A request names [isRunning] and [startTime] together or not at all, and
    anchors exactly when it sets the timer running. *)
Definition coherent (data : DocData) : Prop :=
  match data_isRunning data, data_startTime data with
  | None, None => True
  | Some true, Some ServerTimestamp => True
  | Some false, Some NullTime => True
  | _, _ => False
  end.

Definition store_invariant (s : Store) : Prop :=
  match s with
  | Some d => timer_invariant d
  | None => True
  end.

(** The ids of a participant sequence. *)
Definition ids (ps : list Participant) : list Z := map id ps.

(** A client in sync with the record: its local state after the snapshot. *)
Definition synced (form : Local) (s : Store) : Local := fst (onSnapshot form s).

(** One round of a client in sync: snapshot in, handler call, commit. *)
Definition act (c : Call) (form : Local) (env : Env) (s : Store) : Store :=
  commit env s (request c (synced form s) env).

(** ** Concrete sessions used below *)

Definition meeting : DocRef := "test-meeting-no-auth".

Definition engineer (i : Z) : Participant :=
  {| id := i; name := "Ada"; role := "Software Engineer"; rate := 90 |}.

(** A connected client with the form filled in. *)
Definition form_filled : Local :=
  {| meetingDocRef := Some meeting; participants := []; isRunning := false;
     accumulatedSeconds := 0; startTime := None;
     newName := " Ada "; newRole := "Software Engineer" |}.

(** The record after an add and a start by a client in sync, at second 160. *)
Definition started_record : Doc :=
  {| doc_participants := Some [engineer 160000];
     doc_isRunning := Some true;
     doc_accumulatedSeconds := Some 0;
     doc_startTime := Some (Some (mkTimestamp 160 0)) |}.

(** The record once the only participant is removed while the timer runs. *)
Definition running_alone_record : Doc :=
  {| doc_participants := Some []; doc_isRunning := Some true;
     doc_accumulatedSeconds := Some 0;
     doc_startTime := Some (Some (mkTimestamp 160 0)) |}.

(** Running since second 100 with one engineer. *)
Definition running_meeting : Local :=
  {| meetingDocRef := Some meeting; participants := [engineer 1];
     isRunning := true; accumulatedSeconds := 5;
     startTime := Some (mkTimestamp 100 0);
     newName := ""; newRole := "Executive (C-Suite)" |}.

(** Marked running, the anchor not there. *)
Definition running_unanchored : Local :=
  {| meetingDocRef := Some meeting; participants := [engineer 1];
     isRunning := true; accumulatedSeconds := 5; startTime := None;
     newName := ""; newRole := "Executive (C-Suite)" |}.

(** Marked running, the anchor not there, and nobody in the meeting. *)
Definition unanchored_alone : Local :=
  {| meetingDocRef := Some meeting; participants := []; isRunning := true;
     accumulatedSeconds := 5; startTime := None;
     newName := ""; newRole := "Executive (C-Suite)" |}.

Definition unanchored_alone_record : Doc :=
  {| doc_participants := Some []; doc_isRunning := Some true;
     doc_accumulatedSeconds := Some 5; doc_startTime := Some None |}.

(** Both clocks agree: second 160. *)
Definition at_160 : Env :=
  {| Date_now := 160000; server_time := mkTimestamp 160 0 |}.

(** Both clocks agree: second 200. *)
Definition at_200 : Env :=
  {| Date_now := 200000; server_time := mkTimestamp 200 0 |}.

(** The form with a name made of white space only. *)
Definition form_blank_name : Local :=
  {| meetingDocRef := Some meeting; participants := []; isRunning := false;
     accumulatedSeconds := 0; startTime := None;
     newName := "   "; newRole := "Software Engineer" |}.

(** The form with a role that is no key of [JOB_ROLES]. *)
Definition form_unknown_role : Local :=
  {| meetingDocRef := Some meeting; participants := []; isRunning := false;
     accumulatedSeconds := 0; startTime := None;
     newName := "Ada"; newRole := "Astronaut" |}.

(** Two submissions of the form during one millisecond of the local clock. *)
Definition one_millisecond : Env :=
  {| Date_now := 1700000000000; server_time := mkTimestamp 1700000000 0 |}.

Definition form_second : Local :=
  {| meetingDocRef := Some meeting; participants := []; isRunning := false;
     accumulatedSeconds := 0; startTime := None;
     newName := "Grace"; newRole := "Director / VP" |}.

(** The server is at second 110; the client's clock is 50 seconds behind. *)
Definition client_behind : Env :=
  {| Date_now := 60000; server_time := mkTimestamp 110 0 |}.

(** The same server instant, the client's clock in step with it. *)
Definition client_in_step : Env :=
  {| Date_now := 110000; server_time := mkTimestamp 110 0 |}.

(** Stopped, one engineer, nothing accumulated. *)
Definition stopped_meeting : Local :=
  {| meetingDocRef := Some meeting; participants := [engineer 1];
     isRunning := false; accumulatedSeconds := 0; startTime := None;
     newName := ""; newRole := "Executive (C-Suite)" |}.

(** Started at second 0 with one engineer, nothing accumulated before. *)
Definition started_at_0 : Local :=
  {| meetingDocRef := Some meeting; participants := [engineer 1];
     isRunning := true; accumulatedSeconds := 0;
     startTime := Some (mkTimestamp 0 0);
     newName := ""; newRole := "Executive (C-Suite)" |}.

Definition at_10 : Env := {| Date_now := 10000; server_time := mkTimestamp 10 0 |}.

(** ** Sessions of clients that mirror the record

    A client's local state is the mirror of the last snapshot it received,
    which can be older than the record; what it holds besides is its
    document reference and the two fields of the add form. *)

Definition client (ref : option DocRef) (formName formRole : string) : Local :=
  {| meetingDocRef := ref; participants := []; isRunning := false;
     accumulatedSeconds := 0; startTime := None;
     newName := formName; newRole := formRole |}.

Inductive session : Store -> Prop :=
| session_absent : session None
| session_call :
    forall (s seen : Store) (c : Call) (ref : option DocRef)
           (formName formRole : string) (env : Env),
      session s -> session seen ->
      session (commit env s
                 (request c (synced (client ref formName formRole) seen) env)).

(** The participants a client reads in a record. *)
Definition record_participants (s : Store) : list Participant :=
  match s with
  | Some d => or_default (doc_participants d) []
  | None => []
  end.

(** What the add handler builds: a name that is not blank and has no white
    space around it, a role of the table, and the rate the table gives it. *)
Definition from_the_form (p : Participant) : Prop :=
  name p <> "" /\ trim (name p) = name p
  /\ own_property (role p) JOB_ROLES = Some (rate p).

(** ** Initialisation: Teams SDK and Firebase configuration *)

(** What the Teams SDK answers. *)
Inductive TeamsContext : Type :=
| SdkRejects                          (* [initialize] or [getContext] rejects *)
| NoMeeting                           (* [context.meeting] is undefined *)
| InMeeting (meetingId : option string).  (* [context.meeting.id] *)

Record ProcessEnv : Type := mkProcessEnv {
  REACT_APP_APP_ID : option string;
  REACT_APP_FIREBASE_CONFIG : option string
}.

(** What [JSON.parse] does with a string. *)
Inductive Parsed (Config : Type) : Type :=
| SyntaxError
| FalsyValue
| Value (config : Config).
Arguments SyntaxError {Config}.
Arguments FalsyValue {Config}.
Arguments Value {Config} _.

(** How the initialisation effect ends. *)
Inductive Initialised : Type :=
| Connected (docRef : DocRef)   (* [setMeetingDocRef(docRef)] *)
| Failed (message : string)     (* [setError(message); setIsLoading(false)] *)
| Uncaught.                     (* an exception leaves the [catch] block *)

Definition testMeetingId : string := "test-meeting-no-auth".

(** [x || d] on an environment variable or an id: undefined and the empty
    string are falsy. *)
Definition truthy_string (x : option string) : option string :=
  match x with
  | Some v => if falsy v then None else Some v
  | None => None
  end.

Section Initialisation.
Variable Config : Type.
(** [JSON.parse], and whether [initializeApp], [getFirestore] or [doc]
    throws on a configuration and the segments of a document path. *)
Variable JSON_parse : string -> Parsed Config.
Variable firebase_throws : Config -> list string -> bool.

Definition appId (penv : ProcessEnv) : string :=
  or_default (truthy_string (REACT_APP_APP_ID penv)) "default-app-id".

Definition firebaseConfig (penv : ProcessEnv) : Parsed Config :=
  match truthy_string (REACT_APP_FIREBASE_CONFIG penv) with
  | Some text => JSON_parse text
  | None => FalsyValue
  end.

Definition docPath (penv : ProcessEnv) (meetingId : string) : list string :=
  ["artifacts"; appId penv; "public/data/meetings"; meetingId].

(** The [catch] block. *)
Definition fallback (penv : ProcessEnv) : Initialised :=
  match firebaseConfig penv with
  | SyntaxError => Uncaught
  | FalsyValue => Failed "Failed to initialize. Firebase config missing."
  | Value config =>
      if firebase_throws config (docPath penv testMeetingId) then Uncaught
      else Connected (String.concat "/" (docPath penv testMeetingId))
  end.

Definition initialize (teams : TeamsContext) (penv : ProcessEnv) : Initialised :=
  match teams with
  | SdkRejects | NoMeeting => fallback penv
  | InMeeting meetingId =>
      match truthy_string meetingId with
      | None => Failed "This app can only be run in a Teams meeting."
      | Some meetingId =>
          match firebaseConfig penv with
          | SyntaxError => fallback penv
          | FalsyValue => Failed "Firebase configuration is missing."
          | Value config =>
              if firebase_throws config (docPath penv meetingId)
              then fallback penv
              else Connected (String.concat "/" (docPath penv meetingId))
          end
      end
  end.
End Initialisation.

(** ** The view: loading, error, or the meeting *)

Record Ui : Type := mkUi {
  local : Local;
  isLoading : bool;
  error : option string
}.

Definition mounted : Ui :=
  {| local := initialState; isLoading := true; error := None |}.

Definition with_docRef (l : Local) (ref : DocRef) : Local :=
  {| meetingDocRef := Some ref;
     participants := participants l;
     isRunning := isRunning l;
     accumulatedSeconds := accumulatedSeconds l;
     startTime := startTime l;
     newName := newName l;
     newRole := newRole l |}.

(** The state updates the initialisation effect ends with. *)
Definition initialised (u : Ui) (r : Initialised) : Ui :=
  match r with
  | Connected ref =>
      {| local := with_docRef (local u) ref;
         isLoading := isLoading u; error := error u |}
  | Failed message =>
      {| local := local u; isLoading := false; error := Some message |}
  | Uncaught => u
  end.

Inductive ListenerEvent : Type :=
| Next (docSnap : Store)
| ListenerError.

(** The synchronisation effect: no listener without a document reference;
    with one, the two callbacks given to [onSnapshot]. *)
Definition listener (u : Ui) (ev : ListenerEvent) : Ui * Effect :=
  match meetingDocRef (local u) with
  | None => (u, Return)
  | Some _ =>
      match ev with
      | Next docSnap =>
          ({| local := fst (onSnapshot (local u) docSnap);
              isLoading := false; error := error u |},
           snd (onSnapshot (local u) docSnap))
      | ListenerError =>
          ({| local := local u; isLoading := false;
              error := Some "Failed to connect to the database. Check your Firestore security rules." |},
           Return)
      end
  end.

Inductive View : Type :=
| LoadingView
| ErrorView (message : string)
| MeetingView.

(** The render logic: [if (isLoading) ...; if (error) ...; return ...]. *)
Definition render (u : Ui) : View :=
  if isLoading u then LoadingView
  else
    match truthy_string (error u) with
    | Some message => ErrorView message
    | None => MeetingView
    end.

(** The form inputs ([setNewName], [setNewRole]) and the add handler change
    the local state; nothing else does. *)
Inductive ui_step : Ui -> Ui -> Prop :=
| step_initialised :
    forall u (Config : Type) (JSON_parse : string -> Parsed Config)
           (firebase_throws : Config -> list string -> bool)
           (teams : TeamsContext) (penv : ProcessEnv),
      ui_step u
        (initialised u (initialize Config JSON_parse firebase_throws teams penv))
| step_listener : forall u ev, ui_step u (fst (listener u ev))
| step_form : forall u formName formRole,
    ui_step u
      {| local :=
           {| meetingDocRef := meetingDocRef (local u);
              participants := participants (local u);
              isRunning := isRunning (local u);
              accumulatedSeconds := accumulatedSeconds (local u);
              startTime := startTime (local u);
              newName := formName;
              newRole := formRole |};
         isLoading := isLoading u; error := error u |}
| step_add : forall u env outcome,
    ui_step u
      {| local := snd (handleAddParticipant_settled (local u) env outcome);
         isLoading := isLoading u; error := error u |}.

Inductive ui_reachable : Ui -> Prop :=
| ui_mounted : ui_reachable mounted
| ui_next : forall u u', ui_reachable u -> ui_step u u' -> ui_reachable u'.

(** Two clients connect, one creates the record, the other adds Ada. *)
Definition session_with_ada : Store :=
  commit at_160
    (commit at_160 None
       (request (Snapshot None) (synced (client (Some meeting) "" "") None)
          at_160))
    (request AddParticipant
       (synced (client (Some meeting) " Ada " "Software Engineer")
          (Some defaultSessionRecord)) at_160).

(** One second after [at_160]. *)
Definition at_161 : Env :=
  {| Date_now := 161000; server_time := mkTimestamp 161 0 |}.

(** An executive and a director, stopped after 3 seconds. *)
Definition executive_and_director : Local :=
  {| meetingDocRef := Some meeting;
     participants :=
       [ {| id := 1; name := "Ada"; role := "Executive (C-Suite)"; rate := 250 |};
         {| id := 2; name := "Grace"; role := "Director / VP"; rate := 175 |} ];
     isRunning := false; accumulatedSeconds := 3; startTime := None;
     newName := ""; newRole := "Executive (C-Suite)" |}.

(** A world for the initialisation: the configuration is kept as its text,
    [JSON.parse] rejects the text [{], and no Firebase call throws. *)
Definition parse_sample (text : string) : Parsed string :=
  if String.eqb text "{" then SyntaxError else Value text.

Definition firebase_never_throws (config : string) (path : list string) : bool :=
  false.

Definition env_with_config : ProcessEnv :=
  {| REACT_APP_APP_ID := None; REACT_APP_FIREBASE_CONFIG := Some "{}" |}.

Definition env_without_config : ProcessEnv :=
  {| REACT_APP_APP_ID := Some "meeting-cost"; REACT_APP_FIREBASE_CONFIG := None |}.

Definition env_with_malformed_config : ProcessEnv :=
  {| REACT_APP_APP_ID := None; REACT_APP_FIREBASE_CONFIG := Some "{" |}.

(** Mounted, connected to the test meeting, the first snapshot received. *)
Definition ui_in_meeting : Ui :=
  fst (listener
         (initialised mounted
            (initialize string parse_sample firebase_never_throws SdkRejects
               env_with_config))
         (Next (Some defaultSessionRecord))).

(** Still loading, or an error on display, or connected. *)
Definition shown_or_connected (u : Ui) : Prop :=
  isLoading u = true
  \/ (exists message, error u = Some message /\ falsy message = false)
  \/ meetingDocRef (local u) <> None.

(** ** Display of the elapsed time: [formatTime]

    The elapsed seconds the component displays are integers.  On integers,
    [Math.floor(a / b)] with [b > 0] is [Z.div], and [a % b] is [Z.rem] (the
    sign of the dividend); [toString] is the decimal numeral, with a minus
    sign on negative numbers. *)

Definition toString (v : Z) : string :=
  DecimalString.NilZero.string_of_int (Z.to_int v).

Fixpoint repeat_string (n : nat) (pad : string) : string :=
  match n with
  | O => ""
  | S n' => pad ++ repeat_string n' pad
  end.

(** [s.padStart(targetLength, padString)] *)
Definition padStart (targetLength : nat) (padString s : string) : string :=
  let len := String.length s in
  if (targetLength <=? len)%nat || falsy padString then s
  else
    substring 0 (targetLength - len)
      (repeat_string (targetLength - len) padString) ++ s.

Definition formatTime (totalSeconds : Z) : string :=
  let hours := totalSeconds / 3600 in
  let minutes := Z.rem totalSeconds 3600 / 60 in
  let seconds := Z.rem totalSeconds 60 in
  String.concat ":"
    (map (fun v => padStart 2 "0" (toString v)) [hours; minutes; seconds]).

(** The two decimal digits of a number below 100. *)
Definition digit (d : Z) : ascii := ascii_of_N (48 + Z.to_N d).

Definition two_digits (v : Z) : string :=
  String (digit (v / 10)) (String (digit (v mod 10)) "").

(** Reading a display [HH:MM:SS] back. *)
Definition digit_value (c : ascii) : Z := Z.of_N (N_of_ascii c) - 48.

Definition readTime (s : string) : option Z :=
  match s with
  | String h1 (String h0 (String _ (String m1 (String m0
      (String _ (String s1 (String s0 EmptyString))))))) =>
      Some ((10 * digit_value h1 + digit_value h0) * 3600
            + (10 * digit_value m1 + digit_value m0) * 60
            + (10 * digit_value s1 + digit_value s0))
  | _ => None
  end.

(** ** Proof steps *)

(** Closes [a = true <-> b <> None] on concrete [a] and [b]. *)
Ltac timer_cases :=
  split; intros Hside;
  solve [ discriminate Hside | congruence | reflexivity
        | exfalso; apply Hside; reflexivity ].

(** * Properties *)

(** ** The store *)

Lemma commit_Return (env : Env) (s : Store) : commit env s Return = s.
Proof. reflexivity. Qed.

Lemma commit_Throw (env : Env) (s : Store) (e : Error) :
  commit env s (Throw e) = s.
Proof. reflexivity. Qed.

Lemma overwrite_None {A : Type} (old : option A) : overwrite None old = old.
Proof. reflexivity. Qed.

Lemma merge_same_participants (env : Env) (d : Doc) (ps : list Participant) :
  doc_participants d = Some ps ->
  setDoc env (Some d)
    {| data_participants := Some ps; data_isRunning := None;
       data_accumulatedSeconds := None; data_startTime := None |} true
  = Some d.
Proof.
  destruct d as [dp dr da dt]; simpl; intros ->.
  reflexivity.
Qed.

(** ** Configuration and strings *)

Example first_role_offered : newRole initialState = "Executive (C-Suite)".
Proof. reflexivity. Qed.

Example role_lookups :
  JOB_ROLES_get "Software Engineer" = RoleEntry 90
  /\ JOB_ROLES_get "Astronaut" = Undefined
  /\ JOB_ROLES_get "toString" = Inherited.
Proof. repeat split. Qed.

Example trim_examples :
  trim " Ada " = "Ada" /\ trim "   " = "" /\ trim "Ada Lovelace" = "Ada Lovelace".
Proof. repeat split. Qed.

(** ** Timer transitions *)

(** C1, as stated for every running state, fails where the participant
    sequence is empty.  A client adds a participant, starts the timer and
    removes the participant: the record runs with nobody in it.  The toggle
    handler then returns before it looks at [isRunning]: nothing is written
    and the record keeps running. *)
Lemma C1_stop_ignored_without_participants :
  act ToggleTimer form_filled at_160
    (act AddParticipant form_filled at_160 (Some defaultSessionRecord))
  = Some started_record
  /\ act (RemoveParticipant 160000) form_filled at_160 (Some started_record)
     = Some running_alone_record
  /\ isRunning (synced form_filled (Some running_alone_record)) = true
  /\ startTime (synced form_filled (Some running_alone_record))
     = Some (mkTimestamp 160 0)
  /\ handleToggleTimer (synced form_filled (Some running_alone_record)) at_200
     = Return
  /\ act ToggleTimer form_filled at_200 (Some running_alone_record)
     = Some running_alone_record.
Proof. repeat split. Qed.

(** C1 (amended): from every running state with its anchor and at least one
    participant, the toggle handler merge-writes
    [accumulatedSeconds + (now - startTime)], [isRunning = false] and
    [startTime = null], and the record after the commit holds exactly these
    in the three timer fields, its participants untouched. *)
Theorem C1_stop_banks_the_segment :
  forall (l : Local) (env : Env) (a : Timestamp) (ref : DocRef) (s : Store),
    isRunning l = true ->
    startTime l = Some a ->
    participants l <> [] ->
    meetingDocRef l = Some ref ->
    handleToggleTimer l env
    = SetDoc (Some ref)
        {| data_participants := None;
           data_isRunning := Some false;
           data_accumulatedSeconds :=
             Some (accumulatedSeconds l + (seconds (Timestamp_now env) - seconds a));
           data_startTime := Some NullTime |} true
    /\ exists d : Doc,
        commit env s (handleToggleTimer l env) = Some d
        /\ doc_accumulatedSeconds d
           = Some (accumulatedSeconds l + (seconds (Timestamp_now env) - seconds a))
        /\ doc_isRunning d = Some false
        /\ doc_startTime d = Some None
        /\ doc_participants d
           = match s with Some d0 => doc_participants d0 | None => None end.
Proof.
  intros l env a ref s Hrun Hanchor Hps Href.
  unfold handleToggleTimer.
  destruct (participants l) as [|p ps]; [contradiction|].
  rewrite Hrun, Hanchor, Href. split; [reflexivity|].
  simpl. eexists; split; [reflexivity|].
  destruct s as [d0|]; simpl; repeat split.
Qed.

Lemma C1_stop_banks_the_segment_witness :
  isRunning running_meeting = true
  /\ exists d : Doc,
      commit at_160 None (handleToggleTimer running_meeting at_160) = Some d
      /\ doc_accumulatedSeconds d = Some 65
      /\ doc_isRunning d = Some false
      /\ doc_startTime d = Some None
      /\ doc_participants d = None.
Proof.
  split; [reflexivity|].
  apply (C1_stop_banks_the_segment running_meeting at_160 (mkTimestamp 100 0)
           meeting None); try reflexivity.
  discriminate.
Defined.

(** C10, as stated, fails the same way: with no participant the handler
    returns before the running branch, so a record marked running without
    anchor is left as it is. *)
Lemma C10_nothing_written_without_participants :
  isRunning unanchored_alone = true
  /\ startTime unanchored_alone = None
  /\ synced unanchored_alone (Some unanchored_alone_record) = unanchored_alone
  /\ handleToggleTimer unanchored_alone at_160 = Return
  /\ act ToggleTimer unanchored_alone at_160 (Some unanchored_alone_record)
     = Some unanchored_alone_record
  /\ doc_isRunning unanchored_alone_record = Some true.
Proof. repeat split. Qed.

(** C10 (amended): called on a state marked running whose anchor is absent
    and with at least one participant, the toggle handler does not fail: the
    segment counts for 0, and it merge-writes the old [accumulatedSeconds],
    [isRunning = false] and [startTime = null]. *)
Theorem C10_stop_without_anchor :
  forall (l : Local) (env : Env) (ref : DocRef) (s : Store),
    isRunning l = true ->
    startTime l = None ->
    participants l <> [] ->
    meetingDocRef l = Some ref ->
    handleToggleTimer l env
    = SetDoc (Some ref)
        {| data_participants := None;
           data_isRunning := Some false;
           data_accumulatedSeconds := Some (accumulatedSeconds l);
           data_startTime := Some NullTime |} true
    /\ exists d : Doc,
        commit env s (handleToggleTimer l env) = Some d
        /\ doc_accumulatedSeconds d = Some (accumulatedSeconds l)
        /\ doc_isRunning d = Some false
        /\ doc_startTime d = Some None.
Proof.
  intros l env ref s Hrun Hanchor Hps Href.
  unfold handleToggleTimer.
  destruct (participants l) as [|p ps]; [contradiction|].
  rewrite Hrun, Hanchor, Href, Z.add_0_r. split; [reflexivity|].
  simpl. eexists; split; [reflexivity|].
  repeat split.
Qed.

Lemma C10_stop_without_anchor_witness :
  startTime running_unanchored = None
  /\ exists d : Doc,
      commit at_160 (Some running_alone_record)
        (handleToggleTimer running_unanchored at_160) = Some d
      /\ doc_accumulatedSeconds d = Some 5
      /\ doc_isRunning d = Some false
      /\ doc_startTime d = Some None.
Proof.
  split; [reflexivity|].
  apply (C10_stop_without_anchor running_unanchored at_160 meeting
           (Some running_alone_record)); try reflexivity.
  discriminate.
Defined.

(** C4: with an empty participant sequence the toggle handler issues no
    write and changes nothing, whatever the timer state: the record is the
    same after the call. *)
Theorem C4_start_rejected_without_participants :
  forall (l : Local) (env : Env) (s : Store),
    participants l = [] ->
    handleToggleTimer l env = Return
    /\ commit env s (handleToggleTimer l env) = s.
Proof.
  intros l env s Hps. unfold handleToggleTimer. rewrite Hps.
  split; reflexivity.
Qed.

Lemma C4_start_rejected_without_participants_witness :
  participants (synced initialState (Some defaultSessionRecord)) = []
  /\ handleToggleTimer (synced initialState (Some defaultSessionRecord)) at_160
     = Return
  /\ commit at_160 (Some defaultSessionRecord)
       (handleToggleTimer (synced initialState (Some defaultSessionRecord))
          at_160)
     = Some defaultSessionRecord.
Proof.
  split; [reflexivity|].
  apply (C4_start_rejected_without_participants
           (synced initialState (Some defaultSessionRecord)) at_160
           (Some defaultSessionRecord)).
  reflexivity.
Defined.

(** C6: whatever the local state and the record before, reset issues a
    [setDoc] without merge of the empty record, the record after the commit
    is exactly the default one, and every client reads it as no participant,
    stopped, 0 seconds accumulated, no anchor. *)
Theorem C6_reset_replaces_with_empty_record :
  forall (l : Local) (env : Env) (ref : DocRef) (s : Store),
    meetingDocRef l = Some ref ->
    handleReset l = SetDoc (Some ref) emptyRecord false
    /\ commit env s (handleReset l) = Some defaultSessionRecord
    /\ forall l' : Local,
        let l'' := synced l' (commit env s (handleReset l)) in
        participants l'' = [] /\ isRunning l'' = false
        /\ accumulatedSeconds l'' = 0 /\ startTime l'' = None.
Proof.
  intros l env ref s Href. unfold handleReset. rewrite Href.
  repeat split.
Qed.

Lemma C6_reset_replaces_with_empty_record_witness :
  meetingDocRef running_meeting = Some meeting
  /\ commit at_160 (Some running_alone_record) (handleReset running_meeting)
     = Some defaultSessionRecord.
Proof.
  split; [reflexivity|].
  apply (C6_reset_replaces_with_empty_record running_meeting at_160 meeting
           (Some running_alone_record)).
  reflexivity.
Defined.

(** ** Participant registry *)

Lemma filter_other_ids (i : Z) (ps : list Participant) :
  ~ In i (ids ps) ->
  filter (fun p => negb (id p =? i)) ps = ps.
Proof.
  induction ps as [|p ps IH]; simpl; intros Hnotin; [reflexivity|].
  destruct (Z.eqb_spec (id p) i) as [Heq|Hneq]; simpl.
  - exfalso. apply Hnotin. left. exact Heq.
  - f_equal. apply IH. intros Hin. apply Hnotin. right. exact Hin.
Qed.

(** C9: removing an id that occurs nowhere in the participant sequence
    merge-writes the very same sequence, with no error, and leaves a record
    holding that sequence as it was. *)
Theorem C9_remove_absent_id_changes_nothing :
  forall (l : Local) (i : Z) (ref : DocRef),
    ~ In i (ids (participants l)) ->
    meetingDocRef l = Some ref ->
    handleRemoveParticipant l i
    = SetDoc (Some ref)
        {| data_participants := Some (participants l);
           data_isRunning := None;
           data_accumulatedSeconds := None;
           data_startTime := None |} true
    /\ forall (env : Env) (d : Doc),
        doc_participants d = Some (participants l) ->
        commit env (Some d) (handleRemoveParticipant l i) = Some d.
Proof.
  intros l i ref Hnotin Href.
  unfold handleRemoveParticipant.
  rewrite (filter_other_ids i (participants l) Hnotin), Href.
  split; [reflexivity|].
  intros env d Hd. simpl. apply merge_same_participants. exact Hd.
Qed.

Lemma C9_remove_absent_id_changes_nothing_witness :
  ~ In 7 (ids (participants running_meeting))
  /\ handleRemoveParticipant running_meeting 7
     = SetDoc (Some meeting)
         {| data_participants := Some [engineer 1];
            data_isRunning := None;
            data_accumulatedSeconds := None;
            data_startTime := None |} true.
Proof.
  assert (Hnotin : ~ In 7 (ids (participants running_meeting))).
  { simpl. intros [H|[]]. discriminate H. }
  split; [exact Hnotin|].
  apply (C9_remove_absent_id_changes_nothing running_meeting 7 meeting Hnotin).
  reflexivity.
Defined.

(** C7, as stated, fails on the error: on a name that is blank after
    trimming the add handler returns, it raises nothing. *)
Lemma C7_blank_name_raises_no_error :
  trim (newName form_blank_name) = ""
  /\ fst (handleAddParticipant form_blank_name at_160) = Return
  /\ ~ (exists e : Error,
          fst (handleAddParticipant form_blank_name at_160) = Throw e).
Proof.
  repeat split. intros [e He]. discriminate He.
Qed.

Lemma falsy_spec (s : string) : falsy s = true <-> s = "".
Proof. destruct s; simpl; split; intros H; congruence. Qed.

(** C7 (amended): on a name that is empty after trimming, or a role that is
    no key of [JOB_ROLES], the add handler issues no store request and
    changes neither the record nor the local state; it returns without an
    error when the name is blank (or the role is empty, or the document
    reference is missing), and otherwise throws before any request goes
    out. *)
Theorem C7_invalid_add_writes_nothing :
  forall (l : Local) (env : Env),
    trim (newName l) = "" \/ own_property (newRole l) JOB_ROLES = None ->
    let r := handleAddParticipant l env in
    (fst r = Return \/ exists e : Error, fst r = Throw e)
    /\ snd r = l
    /\ (forall s : Store, commit env s (fst r) = s)
    /\ (trim (newName l) = "" \/ newRole l = "" \/ meetingDocRef l = None ->
        fst r = Return)
    /\ (trim (newName l) <> "" -> newRole l <> "" -> meetingDocRef l <> None ->
        exists e : Error, fst r = Throw e).
Proof.
  intros l env Hbad. cbv zeta. unfold handleAddParticipant.
  destruct (falsy (trim (newName l))) eqn:Hname.
  { simpl. repeat split; auto.
    intros Hn. apply falsy_spec in Hname. contradiction. }
  destruct (falsy (newRole l)) eqn:Hrole.
  { simpl. repeat split; auto.
    intros _ Hn. apply falsy_spec in Hrole. contradiction. }
  destruct (meetingDocRef l) as [ref|] eqn:Href.
  2:{ simpl. repeat split; auto. intros _ _ Hn. contradiction. }
  simpl.
  assert (Hown : own_property (newRole l) JOB_ROLES = None).
  { destruct Hbad as [Hblank|Hown]; [|exact Hown].
    apply falsy_spec in Hblank. congruence. }
  unfold JOB_ROLES_get. rewrite Hown.
  assert (Hnot_blank : trim (newName l) <> "").
  { intros Hn. apply falsy_spec in Hn. congruence. }
  assert (Hnot_empty : newRole l <> "").
  { intros Hn. apply falsy_spec in Hn. congruence. }
  destruct (inherited_property (newRole l)); simpl;
    (split; [right; eexists; reflexivity|]);
    (split; [reflexivity|]);
    (split; [reflexivity|]);
    (split; [intros [Hn|[Hn|Hn]]; [contradiction|contradiction|discriminate Hn]
            | intros _ _ _; eexists; reflexivity]).
Qed.

Lemma C7_invalid_add_writes_nothing_witness :
  own_property (newRole form_unknown_role) JOB_ROLES = None
  /\ fst (handleAddParticipant form_unknown_role at_160) = Throw TypeError
  /\ commit at_160 (Some defaultSessionRecord)
       (fst (handleAddParticipant form_unknown_role at_160))
     = Some defaultSessionRecord.
Proof.
  split; [reflexivity|].
  destruct (C7_invalid_add_writes_nothing form_unknown_role at_160
              (or_intror eq_refl)) as (_ & _ & Hstore & _ & _).
  split; [reflexivity|].
  apply Hstore.
Defined.

(** *** Ids *)

Lemma ids_app (ps qs : list Participant) : ids (ps ++ qs) = (ids ps ++ ids qs)%list.
Proof. apply map_app. Qed.

(** An add keeps the ids distinct when the clock reading is not an id of
    the local sequence already. *)
Lemma add_keeps_ids_distinct (l : Local) (env : Env) (ref : option DocRef)
    (data : DocData) (m : bool) :
  fst (handleAddParticipant l env) = SetDoc ref data m ->
  NoDup (ids (participants l)) ->
  ~ In (Date_now env) (ids (participants l)) ->
  exists ps : list Participant,
    data_participants data = Some ps /\ NoDup (ids ps).
Proof.
  unfold handleAddParticipant.
  destruct (falsy (trim (newName l)) || falsy (newRole l)
            || match meetingDocRef l with None => true | Some _ => false end);
    [discriminate|].
  destruct (JOB_ROLES_get (newRole l)) as [r| |]; try discriminate.
  simpl. intros Heff Hnodup Hfresh. injection Heff as _ <- _.
  eexists; split; [reflexivity|].
  rewrite ids_app. simpl.
  apply NoDup_app; [exact Hnodup | repeat constructor; intros [] |].
  intros i Hin [Heq|[]]. subst i. contradiction.
Qed.

Lemma remove_keeps_ids_distinct (l : Local) (i : Z) :
  NoDup (ids (participants l)) ->
  NoDup (ids (filter (fun p => negb (id p =? i)) (participants l))).
Proof.
  induction (participants l) as [|p ps IH]; simpl; intros Hnodup;
    [constructor|].
  inversion Hnodup as [|x xs Hnotin Hrest]; subst.
  destruct (negb (id p =? i)); simpl; [|apply IH; exact Hrest].
  constructor; [|apply IH; exact Hrest].
  intros Hin. apply Hnotin. unfold ids in *.
  apply in_map_iff in Hin. destruct Hin as (q & Hq & Hinq).
  apply filter_In in Hinq. apply in_map_iff. exists q. tauto.
Qed.

(** C8: the id of a new participant is the reading of [Date.now()], which
    is not fresh when the clock reads the same millisecond twice: two adds
    from clients in sync with the record, from the default record on, leave
    two participants with one id. *)
Theorem C8_two_adds_in_one_millisecond_share_an_id :
  act AddParticipant form_second one_millisecond
    (act AddParticipant form_filled one_millisecond (Some defaultSessionRecord))
  = Some {| doc_participants :=
              Some [ {| id := 1700000000000; name := "Ada";
                        role := "Software Engineer"; rate := 90 |};
                     {| id := 1700000000000; name := "Grace";
                        role := "Director / VP"; rate := 175 |} ];
            doc_isRunning := Some false;
            doc_accumulatedSeconds := Some 0;
            doc_startTime := Some None |}
  /\ ~ NoDup (ids [ {| id := 1700000000000; name := "Ada";
                       role := "Software Engineer"; rate := 90 |};
                    {| id := 1700000000000; name := "Grace";
                       role := "Director / VP"; rate := 175 |} ]).
Proof.
  split; [reflexivity|].
  simpl. intros Hnodup. inversion Hnodup as [|x xs Hnotin _]; subst.
  apply Hnotin. left. reflexivity.
Qed.

(** ** The invariant of the shared record *)

Lemma request_coherent (c : Call) (l : Local) (env : Env) :
  match request c l env with
  | SetDoc _ data _ => coherent data
  | _ => True
  end.
Proof.
  destruct c as [| | |i|docSnap]; simpl.
  - unfold handleToggleTimer.
    destruct (participants l); [exact I|].
    destruct (isRunning l); exact I.
  - exact I.
  - unfold handleAddParticipant.
    destruct (falsy (trim (newName l)) || falsy (newRole l)
              || match meetingDocRef l with None => true | Some _ => false end);
      [exact I|].
    destruct (JOB_ROLES_get (newRole l)); exact I.
  - exact I.
  - destruct docSnap; exact I.
Qed.

Lemma no_fields_invariant : timer_invariant no_fields.
Proof. unfold timer_invariant; simpl. timer_cases. Qed.

Lemma setDoc_invariant (env : Env) (s : Store) (data : DocData) (m : bool) :
  coherent data -> store_invariant s -> store_invariant (setDoc env s data m).
Proof.
  intros Hco Hinv.
  assert (Hold : timer_invariant
                   (match s with Some d => d | None => no_fields end)).
  { destruct s; [exact Hinv | exact no_fields_invariant]. }
  destruct data as [dp dr da dt]. unfold coherent in Hco; simpl in Hco.
  unfold setDoc, store_invariant.
  destruct (match s with Some d => d | None => no_fields end)
    as [op orun oa ot].
  unfold timer_invariant, snapshot_isRunning, snapshot_startTime in *.
  destruct m, dr as [[|]|], dt as [[|]|]; simpl in *;
    try contradiction; try exact Hold; timer_cases.
Qed.

Lemma commit_invariant (env : Env) (s : Store) (c : Call) (l : Local) :
  store_invariant s -> store_invariant (commit env s (request c l env)).
Proof.
  intros Hinv. pose proof (request_coherent c l env) as Hco.
  destruct (request c l env) as [|[ref|] data m|e]; simpl; try exact Hinv.
  apply setDoc_invariant; assumption.
Qed.

(** C2: in every record reachable from the default session record (or from
    no record at all) by start, stop and reset, and by adds, removes and
    first-access initialisations as well, called by clients whose local
    state may be stale, the start anchor is present if and only if the timer
    is running. *)
Theorem C2_anchor_present_iff_running :
  forall (s : Store) (d : Doc),
    reachable s -> s = Some d ->
    (snapshot_startTime d <> None <-> snapshot_isRunning d = true).
Proof.
  intros s d Hreach.
  assert (Hinv : store_invariant s).
  { induction Hreach as [| |s c l env _ IH].
    - exact I.
    - unfold store_invariant, timer_invariant; simpl. timer_cases.
    - apply commit_invariant. exact IH. }
  intros ->. unfold store_invariant, timer_invariant in Hinv. tauto.
Qed.

Lemma started_record_reachable : reachable (Some started_record).
Proof.
  change (Some started_record)
    with (act ToggleTimer form_filled at_160
            (act AddParticipant form_filled at_160 (Some defaultSessionRecord))).
  unfold act. do 2 apply reachable_call. apply reachable_default.
Qed.

Lemma C2_anchor_present_iff_running_witness :
  reachable (Some started_record)
  /\ (snapshot_startTime started_record <> None
      <-> snapshot_isRunning started_record = true).
Proof.
  split; [exact started_record_reachable|].
  apply (C2_anchor_present_iff_running (Some started_record) started_record
           started_record_reachable eq_refl).
Defined.

(** ** Which clock *)

(** C3: the instants of the duration arithmetic are to be the server's,
    and start does anchor on the server's clock; but stop and the tick
    subtract that anchor from [Timestamp.now()], the client's clock.  The
    meeting runs since the server's second 100 with 5 seconds banked and the
    server is at second 110: a client whose clock reads second 60 stops it
    with -35 seconds accumulated and displays -35 elapsed seconds, where the
    server's instant gives 15; at one server instant the value written
    follows the local clock. *)
Lemma C3_stop_and_tick_follow_the_local_clock :
  handleToggleTimer running_meeting client_behind
  = SetDoc (Some meeting)
      {| data_participants := None;
         data_isRunning := Some false;
         data_accumulatedSeconds := Some (-35);
         data_startTime := Some NullTime |} true
  /\ elapsedSeconds (calculateCosts (N := Q) running_meeting client_behind) = -35
  /\ accumulatedSeconds running_meeting
     + (seconds (server_time client_behind) - 100) = 15
  /\ server_time client_behind = server_time client_in_step
  /\ handleToggleTimer running_meeting client_behind
     <> handleToggleTimer running_meeting client_in_step
  /\ elapsedSeconds (calculateCosts (N := Q) running_meeting client_behind)
     <> elapsedSeconds (calculateCosts (N := Q) running_meeting client_in_step).
Proof.
  repeat split; intros Heq; discriminate Heq.
Qed.

(** The two clocks in the handlers: the anchor that start leaves in the
    record is the instant the server assigns to the write; the instant that
    stop subtracts the anchor from, and the one each tick derives the
    elapsed seconds from, is read from the client's clock ([Date.now()], in
    whole seconds).  This mismatch is the defect shown above. *)
Theorem anchor_from_server_now_from_client :
  forall (stopped running : Local) (env : Env) (ref : DocRef)
         (a : Timestamp) (s : Store),
    isRunning stopped = false ->
    participants stopped <> [] ->
    meetingDocRef stopped = Some ref ->
    isRunning running = true ->
    participants running <> [] ->
    startTime running = Some a ->
    (exists d : Doc,
        commit env s (handleToggleTimer stopped env) = Some d
        /\ doc_startTime d = Some (Some (server_time env)))
    /\ (exists data : DocData,
          handleToggleTimer running env
          = SetDoc (meetingDocRef running) data true
          /\ data_accumulatedSeconds data
             = Some (accumulatedSeconds running
                     + (Date_now env / 1000 - seconds a)))
    /\ elapsedSeconds (calculateCosts (N := Q) running env)
       = accumulatedSeconds running + (Date_now env / 1000 - seconds a).
Proof.
  intros stopped running env ref a s Hstopped Hps Href Hrunning Hpr Hanchor.
  unfold handleToggleTimer, calculateCosts.
  destruct (participants stopped) as [|p ps]; [contradiction|].
  destruct (participants running) as [|q qs]; [contradiction|].
  rewrite Hstopped, Href, Hrunning, Hanchor. simpl.
  split; [|split].
  - eexists; split; [reflexivity|].
    destruct s; reflexivity.
  - eexists; split; reflexivity.
  - reflexivity.
Qed.

Lemma anchor_from_server_now_from_client_witness :
  (exists d : Doc,
      commit client_behind None (handleToggleTimer stopped_meeting client_behind)
      = Some d
      /\ doc_startTime d = Some (Some (mkTimestamp 110 0)))
  /\ (exists data : DocData,
        handleToggleTimer running_meeting client_behind
        = SetDoc (Some meeting) data true
        /\ data_accumulatedSeconds data = Some (5 + (60000 / 1000 - 100)))
  /\ elapsedSeconds (calculateCosts (N := Q) running_meeting client_behind)
     = 5 + (60000 / 1000 - 100).
Proof.
  apply (anchor_from_server_now_from_client stopped_meeting running_meeting
           client_behind meeting (mkTimestamp 100 0) None);
    try reflexivity; discriminate.
Defined.

(** ** Derived values *)

Lemma total_rate_times_elapsed (ps : list Participant) (a : Q) (e : Z) :
  (fold_left (fun acc p => acc + inject_Z (rate p) / inject_Z 3600) ps a
   * inject_Z e
   == a * inject_Z e + spec_totalCost ps e)%Q.
Proof.
  revert a. induction ps as [|p ps IH]; intros a; simpl.
  - ring.
  - rewrite IH. unfold spec_perParticipantCost. ring.
Qed.

Lemma fold_left_rates {N : Type} `{Number N} (ps : list Participant) (a : N) :
  fold_left
    (fun acc p => num_add acc (num_div (num_of_Z (rate p)) (num_of_Z 3600)))
    ps a
  = fold_left num_add (rates_per_second ps) a.
Proof.
  revert a. induction ps as [|p ps IH]; intros a; simpl; [reflexivity|].
  apply IH.
Qed.

(** C5, as stated, fails in the arithmetic of the code: [calculateCosts]
    multiplies the sum of the rates per second by the elapsed seconds, which
    in binary64 is not always the sum of the participants' costs.  An
    executive (250) and a director (175), 3 elapsed seconds: the total is
    0.35416666666666663, the two costs 0.20833333333333334 and
    0.14583333333333334 add up to 0.35416666666666669. *)
Lemma C5_binary64_total_is_not_the_sum_of_the_costs :
  elapsedSeconds (calculateCosts (N := float) executive_and_director at_160) = 3
  /\ totalCost (calculateCosts (N := float) executive_and_director at_160)
     = 0x1.6aaaaaaaaaaaap-2%float
  /\ PrimFloat.add
       (PrimFloat.add 0
          (getParticipantCost
             (calculateCosts (N := float) executive_and_director at_160) 250))
       (getParticipantCost
          (calculateCosts (N := float) executive_and_director at_160) 175)
     = 0x1.6aaaaaaaaaaabp-2%float
  /\ totalCost (calculateCosts (N := float) executive_and_director at_160)
     <> PrimFloat.add
          (PrimFloat.add 0
             (getParticipantCost
                (calculateCosts (N := float) executive_and_director at_160)
                250))
          (getParticipantCost
             (calculateCosts (N := float) executive_and_director at_160) 175).
Proof.
  split; [reflexivity|].
  split; [vm_compute; reflexivity|].
  split; [vm_compute; reflexivity|].
  intros Heq.
  apply (f_equal (fun z => PrimFloat.eqb z 0x1.6aaaaaaaaaaaap-2%float)) in Heq.
  vm_compute in Heq. discriminate Heq.
Qed.

(** C5 (amended): for every state and clock, in binary64 as in any reading
    of the numbers, [calculateCosts] sets
    [elapsedSeconds = accumulatedSeconds + (isRunning && startTime ? now - startTime : 0)]
    -- which is the formula of the specification wherever that one has a
    value -- and [totalCost] to the sum of the [rate / 3600], taken in the
    order of the sequence from 0, times [elapsedSeconds];
    [getParticipantCost] gives [(p.rate / 3600) * elapsedSeconds] for every
    participant; one participant of rate 90 and 10 elapsed seconds give a
    total of exactly 0.25 in binary64. *)
Theorem C5_derived_values_as_computed :
  forall (l : Local) (env : Env),
    (forall (N : Type) (num : Number N),
        let d := calculateCosts (N := N) l env in
        elapsedSeconds d
        = accumulatedSeconds l + running_segment l (Timestamp_now env)
        /\ totalCost d
           = num_mul (sum_in_order (rates_per_second (participants l)))
               (num_of_Z (elapsedSeconds d))
        /\ forall p : Participant,
            getParticipantCost d (rate p)
            = num_mul (num_div (num_of_Z (rate p)) (num_of_Z 3600))
                (num_of_Z (elapsedSeconds d)))
    /\ (forall e : Z,
           spec_elapsedSeconds (accumulatedSeconds l) (isRunning l)
             (startTime l) (Timestamp_now env) = Some e ->
           elapsedSeconds (calculateCosts (N := float) l env) = e)
    /\ (forall p : Participant,
           participants l = [p] -> rate p = 90 ->
           elapsedSeconds (calculateCosts (N := float) l env) = 10 ->
           totalCost (calculateCosts (N := float) l env) = 0.25%float).
Proof.
  intros l env.
  assert (Helapsed : forall (N : Type) (num : Number N),
             elapsedSeconds (calculateCosts (N := N) l env)
             = accumulatedSeconds l + running_segment l (Timestamp_now env)).
  { intros N num. unfold calculateCosts, running_segment; simpl.
    destruct (isRunning l); [destruct (startTime l)|];
      try reflexivity; rewrite Z.add_0_r; reflexivity. }
  split; [|split].
  - intros N num d. subst d. split; [apply Helapsed|]. split.
    + unfold calculateCosts, sum_in_order; simpl.
      rewrite fold_left_rates. reflexivity.
    + intros p. reflexivity.
  - intros e Hspec. rewrite Helapsed.
    unfold spec_elapsedSeconds, running_segment in *.
    destruct (isRunning l); [destruct (startTime l)|];
      try discriminate Hspec; injection Hspec as <-; reflexivity.
  - intros p Hps Hrate Hten.
    unfold calculateCosts in *; simpl in *.
    rewrite Hps, Hten; simpl. rewrite Hrate.
    vm_compute; reflexivity.
Qed.

Lemma C5_derived_values_as_computed_witness :
  elapsedSeconds (calculateCosts (N := float) started_at_0 at_10) = 10
  /\ totalCost (calculateCosts (N := float) started_at_0 at_10) = 0.25%float.
Proof.
  split; [reflexivity|].
  destruct (C5_derived_values_as_computed started_at_0 at_10)
    as (_ & _ & Hscenario).
  apply (Hscenario (engineer 1)); reflexivity.
Defined.

(** ** Display of the elapsed time *)

Lemma below_100 (P : Z -> Prop) :
  (forall n : nat, (n < 100)%nat -> P (Z.of_nat n)) ->
  forall v : Z, 0 <= v < 100 -> P v.
Proof.
  intros Hall v Hv. rewrite <- (Z2Nat.id v) by lia. apply Hall. lia.
Qed.

Lemma pad_two_digits (v : Z) :
  0 <= v < 100 -> padStart 2 "0" (toString v) = two_digits v.
Proof.
  revert v. apply below_100. intros n Hn.
  do 100 (destruct n as [|n]; [vm_compute; reflexivity|]). lia.
Qed.

Lemma two_digits_value (v : Z) :
  0 <= v < 100 ->
  10 * digit_value (digit (v / 10)) + digit_value (digit (v mod 10)) = v.
Proof.
  revert v. apply below_100. intros n Hn.
  do 100 (destruct n as [|n]; [vm_compute; reflexivity|]). lia.
Qed.

Lemma formatTime_below_100_hours (t : Z) :
  0 <= t < 360000 ->
  formatTime t
  = two_digits (t / 3600) ++ ":" ++ two_digits (t mod 3600 / 60) ++ ":"
    ++ two_digits (t mod 60).
Proof.
  intros Ht. unfold formatTime.
  rewrite !Z.rem_mod_nonneg by lia.
  cbn [map String.concat].
  rewrite !pad_two_digits; [reflexivity | | |].
  - pose proof (Z.mod_pos_bound t 60). lia.
  - pose proof (Z.mod_pos_bound t 3600).
    split; [apply Z.div_pos; lia | apply Z.div_lt_upper_bound; lia].
  - split; [apply Z.div_pos; lia | apply Z.div_lt_upper_bound; lia].
Qed.

Lemma readTime_formatTime (t : Z) :
  0 <= t < 360000 -> readTime (formatTime t) = Some t.
Proof.
  intros Ht. rewrite formatTime_below_100_hours by exact Ht.
  pose proof (Z.mod_pos_bound t 60) as Hs.
  pose proof (Z.mod_pos_bound t 3600) as Hm.
  assert (Hh : 0 <= t / 3600 < 100).
  { split; [apply Z.div_pos; lia | apply Z.div_lt_upper_bound; lia]. }
  assert (Hmin : 0 <= t mod 3600 / 60 < 100).
  { split; [apply Z.div_pos; lia | apply Z.div_lt_upper_bound; lia]. }
  unfold two_digits at 1 2 3. cbn [append readTime].
  rewrite (two_digits_value (t / 3600)) by exact Hh.
  rewrite (two_digits_value (t mod 3600 / 60)) by exact Hmin.
  rewrite (two_digits_value (t mod 60)) by lia.
  f_equal.
  pose proof (Z.div_mod t 3600). pose proof (Z.div_mod (t mod 3600) 60).
  assert (Hmm : (t mod 3600) mod 60 = t mod 60).
  { apply Z.mod_mod_divide. exists 60. reflexivity. }
  lia.
Qed.

(** Below 100 hours the display has the eight characters of [HH:MM:SS],
    and two different elapsed times are never displayed alike. *)
Theorem formatTime_eight_characters_injective :
  forall t t' : Z,
    0 <= t < 360000 -> 0 <= t' < 360000 ->
    String.length (formatTime t) = 8%nat
    /\ readTime (formatTime t) = Some t
    /\ (formatTime t = formatTime t' -> t = t').
Proof.
  intros t t' Ht Ht'. split; [|split].
  - rewrite formatTime_below_100_hours by exact Ht. reflexivity.
  - apply readTime_formatTime. exact Ht.
  - intros Heq.
    pose proof (readTime_formatTime t Ht) as Hr.
    rewrite Heq, (readTime_formatTime t' Ht') in Hr. congruence.
Qed.

Lemma formatTime_eight_characters_injective_witness :
  String.length (formatTime 3725) = 8%nat
  /\ readTime (formatTime 3725) = Some 3725
  /\ (formatTime 3725 = formatTime 3726 -> 3725 = 3726).
Proof.
  apply (formatTime_eight_characters_injective 3725 3726); lia.
Defined.

Lemma toString_negative (v : Z) :
  v < 0 -> exists rest : string,
    toString v = String "-" rest /\ (1 <= String.length rest)%nat.
Proof.
  intros Hv. destruct v as [|p|p]; try lia.
  unfold toString. simpl.
  eexists; split; [reflexivity|].
  unfold DecimalString.NilZero.string_of_uint.
  destruct (Pos.to_uint p); simpl; lia.
Qed.

(** A negative number of seconds is displayed with a minus sign in the hours
    field, which is then not padded: the display starts with [-]. *)
Theorem formatTime_negative_starts_with_minus :
  forall t : Z, t < 0 ->
    exists rest : string, formatTime t = String "-" rest.
Proof.
  intros t Ht. unfold formatTime. cbn [map String.concat].
  assert (Hh : t / 3600 < 0) by (apply Z.div_lt_upper_bound; lia).
  destruct (toString_negative (t / 3600) Hh) as (rest & Heq & Hlen).
  rewrite Heq. unfold padStart.
  replace (2 <=? String.length (String "-" rest))%nat with true.
  2:{ symmetry. apply Nat.leb_le. simpl. lia. }
  simpl. eexists. reflexivity.
Qed.

Lemma formatTime_negative_starts_with_minus_witness :
  exists rest : string, formatTime (-35) = String "-" rest.
Proof.
  apply (formatTime_negative_starts_with_minus (-35)). lia.
Defined.

(** In the last minute before zero the three fields are [-1], [-1] and the
    number of seconds itself. *)
Theorem formatTime_last_negative_minute :
  forall t : Z, -60 < t < 0 ->
    formatTime t = "-1:-1:" ++ toString t.
Proof.
  intros t Ht.
  replace t with (- Z.of_nat (Z.to_nat (- t))) by lia.
  assert (Hn : (0 < Z.to_nat (- t) < 60)%nat) by lia.
  generalize dependent (Z.to_nat (- t)). intros n Hn. clear Ht.
  destruct n as [|n]; [lia|].
  do 59 (destruct n as [|n]; [vm_compute; reflexivity|]). lia.
Qed.

Lemma formatTime_last_negative_minute_witness :
  formatTime (-35) = "-1:-1:" ++ toString (-35).
Proof.
  apply (formatTime_last_negative_minute (-35)). lia.
Defined.

(** ** How the timer calls compose *)

(** Stop banks exactly the elapsed seconds the display shows at that
    instant, with or without an anchor. *)
Theorem stop_banks_what_is_displayed :
  forall (l : Local) (env : Env),
    isRunning l = true ->
    participants l <> [] ->
    exists data : DocData,
      handleToggleTimer l env = SetDoc (meetingDocRef l) data true
      /\ data_accumulatedSeconds data
         = Some (elapsedSeconds (calculateCosts (N := Q) l env)).
Proof.
  intros l env Hrun Hps. unfold handleToggleTimer, calculateCosts.
  destruct (participants l) as [|p ps]; [contradiction|].
  rewrite Hrun. eexists; split; [reflexivity|]. simpl.
  destruct (startTime l); [reflexivity | rewrite Z.add_0_r; reflexivity].
Qed.

Lemma stop_banks_what_is_displayed_witness :
  exists data : DocData,
    handleToggleTimer running_meeting at_160
    = SetDoc (Some meeting) data true
    /\ data_accumulatedSeconds data
       = Some (elapsedSeconds (calculateCosts (N := Q) running_meeting at_160)).
Proof.
  apply (stop_banks_what_is_displayed running_meeting at_160);
    [reflexivity | discriminate].
Defined.

(** With a participant and a document reference, the toggle sets the
    running flag of the record to the opposite of what the calling client
    saw, whatever the record holds by then; it never touches the
    participants, and a start never touches the accumulated seconds. *)
Theorem toggle_writes_the_opposite_of_what_was_seen :
  forall (l : Local) (env : Env) (ref : DocRef) (d : Doc),
    participants l <> [] ->
    meetingDocRef l = Some ref ->
    exists d' : Doc,
      commit env (Some d) (handleToggleTimer l env) = Some d'
      /\ snapshot_isRunning d' = negb (isRunning l)
      /\ doc_participants d' = doc_participants d
      /\ (isRunning l = false ->
          doc_accumulatedSeconds d' = doc_accumulatedSeconds d
          /\ doc_startTime d' = Some (Some (server_time env))).
Proof.
  intros l env ref d Hps Href. unfold handleToggleTimer.
  destruct (participants l) as [|p ps]; [contradiction|].
  rewrite Href. destruct (isRunning l); simpl;
    (eexists; split; [reflexivity|]); repeat split; discriminate.
Qed.

Lemma toggle_writes_the_opposite_of_what_was_seen_witness :
  exists d' : Doc,
    commit at_160 (Some started_record)
      (handleToggleTimer stopped_meeting at_160) = Some d'
    /\ snapshot_isRunning d' = negb (isRunning stopped_meeting)
    /\ doc_participants d' = doc_participants started_record
    /\ (isRunning stopped_meeting = false ->
        doc_accumulatedSeconds d' = doc_accumulatedSeconds started_record
        /\ doc_startTime d' = Some (Some (server_time at_160))).
Proof.
  apply (toggle_writes_the_opposite_of_what_was_seen stopped_meeting at_160
           meeting started_record); [discriminate | reflexivity].
Defined.

Lemma registry_request_keeps_the_timer (l : Local) (env : Env) (i : Z)
    (d : Doc) (c : Call) :
  c = AddParticipant \/ c = RemoveParticipant i ->
  exists d' : Doc,
    commit env (Some d) (request c l env) = Some d'
    /\ doc_isRunning d' = doc_isRunning d
    /\ doc_accumulatedSeconds d' = doc_accumulatedSeconds d
    /\ doc_startTime d' = doc_startTime d.
Proof.
  intros [-> | ->]; simpl.
  - unfold handleAddParticipant.
    destruct (falsy (trim (newName l)) || falsy (newRole l)
              || match meetingDocRef l with None => true | Some _ => false end);
      [exists d; repeat split|].
    destruct (JOB_ROLES_get (newRole l)) as [r| |]; simpl;
      [|exists d; repeat split|exists d; repeat split].
    destruct (meetingDocRef l); simpl; eexists; repeat split.
  - unfold handleRemoveParticipant.
    destruct (meetingDocRef l); simpl; eexists; repeat split.
Qed.

(** Adding and removing participants never changes a timer field of an
    existing record. *)
Theorem registry_calls_leave_the_timer_alone :
  forall (l : Local) (env : Env) (i : Z) (d : Doc) (c : Call),
    c = AddParticipant \/ c = RemoveParticipant i ->
    exists d' : Doc,
      commit env (Some d) (request c l env) = Some d'
      /\ doc_isRunning d' = doc_isRunning d
      /\ doc_accumulatedSeconds d' = doc_accumulatedSeconds d
      /\ doc_startTime d' = doc_startTime d.
Proof.
  intros l env i d c Hc.
  destruct (registry_request_keeps_the_timer l env i d c Hc)
    as (d' & Hcommit & Hrun & Hacc & Hanchor).
  exists d'. repeat split; assumption.
Qed.

Lemma registry_calls_leave_the_timer_alone_witness :
  exists d' : Doc,
    commit at_160 (Some started_record)
      (request (RemoveParticipant 160000) running_meeting at_160) = Some d'
    /\ doc_isRunning d' = doc_isRunning started_record
    /\ doc_accumulatedSeconds d' = doc_accumulatedSeconds started_record
    /\ doc_startTime d' = doc_startTime started_record.
Proof.
  apply (registry_calls_leave_the_timer_alone running_meeting at_160 160000
           started_record (RemoveParticipant 160000)).
  right. reflexivity.
Defined.

(** The accumulated seconds of an existing record change only by a stop, a
    reset, or the first-access write of a client that saw no record. *)
Theorem accumulated_seconds_change_only_by_stop_or_wipe :
  forall (c : Call) (l : Local) (env : Env) (d d' : Doc),
    commit env (Some d) (request c l env) = Some d' ->
    doc_accumulatedSeconds d' <> doc_accumulatedSeconds d ->
    (c = ToggleTimer /\ isRunning l = true /\ participants l <> [])
    \/ c = Reset
    \/ c = Snapshot None.
Proof.
  intros c l env d d' Hcommit Hchanged.
  destruct c as [| | |i|[snap|]]; simpl in Hcommit.
  - left. unfold handleToggleTimer in Hcommit.
    destruct (participants l) as [|p ps].
    + injection Hcommit as <-. contradiction.
    + destruct (isRunning l).
      * repeat split. discriminate.
      * destruct (meetingDocRef l); simpl in Hcommit;
          injection Hcommit as <-; simpl in Hchanged; contradiction.
  - right; left; reflexivity.
  - exfalso.
    destruct (registry_request_keeps_the_timer l env 0 d AddParticipant
                (or_introl eq_refl)) as (d0 & H0 & _ & Hacc & _).
    simpl in H0. rewrite Hcommit in H0. injection H0 as <-. contradiction.
  - exfalso.
    destruct (registry_request_keeps_the_timer l env i d
                (RemoveParticipant i) (or_intror eq_refl))
      as (d0 & H0 & _ & Hacc & _).
    simpl in H0. rewrite Hcommit in H0. injection H0 as <-. contradiction.
  - injection Hcommit as <-. contradiction.
  - right; right; reflexivity.
Qed.

Lemma accumulated_seconds_change_only_by_stop_or_wipe_witness :
  (ToggleTimer = ToggleTimer /\ isRunning running_meeting = true
   /\ participants running_meeting <> [])
  \/ ToggleTimer = Reset
  \/ ToggleTimer = Snapshot None.
Proof.
  apply (accumulated_seconds_change_only_by_stop_or_wipe ToggleTimer
           running_meeting at_160 started_record
           {| doc_participants := Some [engineer 160000];
              doc_isRunning := Some false;
              doc_accumulatedSeconds := Some 65;
              doc_startTime := Some None |}).
  - reflexivity.
  - discriminate.
Defined.

(** A start and then a stop, each by a client in sync with the record:
    the record is stopped again, without anchor, the participants as they
    were, and the accumulated seconds have grown by the local seconds at the
    stop minus the server's seconds at the start. *)
Theorem start_then_stop :
  forall (d : Doc) (form : Local) (ref : DocRef) (env1 env2 : Env),
    meetingDocRef form = Some ref ->
    record_participants (Some d) <> [] ->
    snapshot_isRunning d = false ->
    act ToggleTimer form env2 (act ToggleTimer form env1 (Some d))
    = Some {| doc_participants := doc_participants d;
              doc_isRunning := Some false;
              doc_accumulatedSeconds :=
                Some (or_default (doc_accumulatedSeconds d) 0
                      + (Date_now env2 / 1000 - seconds (server_time env1)));
              doc_startTime := Some None |}.
Proof.
  intros d form ref env1 env2 Href Hps Hstopped.
  destruct form as [fref fps frun facc fst_ fname frole].
  destruct d as [dp dr da dt].
  unfold snapshot_isRunning in Hstopped. simpl in Href, Hps, Hstopped.
  subst fref.
  destruct dp as [[|p ps]|]; try contradiction.
  destruct dr as [[|]|]; try discriminate Hstopped; destruct da; reflexivity.
Qed.

Lemma start_then_stop_witness :
  act ToggleTimer form_filled at_200
    (act ToggleTimer form_filled at_160
       (Some {| doc_participants := Some [engineer 1];
                doc_isRunning := Some false;
                doc_accumulatedSeconds := Some 5;
                doc_startTime := Some None |}))
  = Some {| doc_participants := Some [engineer 1];
            doc_isRunning := Some false;
            doc_accumulatedSeconds := Some (5 + (200000 / 1000 - 160));
            doc_startTime := Some None |}.
Proof.
  apply (start_then_stop
           {| doc_participants := Some [engineer 1];
              doc_isRunning := Some false;
              doc_accumulatedSeconds := Some 5;
              doc_startTime := Some None |} form_filled meeting at_160 at_200);
    [reflexivity | discriminate | reflexivity].
Defined.

(** Two clients that both saw the same running record and both stop it:
    the second write replaces the first, the segment is banked once, as if
    the second client alone had stopped. *)
Theorem two_stops_bank_the_segment_once :
  forall (d : Doc) (form1 form2 : Local) (ref1 ref2 : DocRef)
         (env1 env2 : Env),
    meetingDocRef form1 = Some ref1 ->
    meetingDocRef form2 = Some ref2 ->
    record_participants (Some d) <> [] ->
    snapshot_isRunning d = true ->
    commit env2 (act ToggleTimer form1 env1 (Some d))
      (handleToggleTimer (synced form2 (Some d)) env2)
    = act ToggleTimer form2 env2 (Some d).
Proof.
  intros d form1 form2 ref1 ref2 env1 env2 Href1 Href2 Hps Hrun.
  destruct form1 as [fref1 fps1 frun1 facc1 fst1 fname1 frole1].
  destruct form2 as [fref2 fps2 frun2 facc2 fst2 fname2 frole2].
  destruct d as [dp dr da dt].
  unfold snapshot_isRunning in Hrun. simpl in Href1, Href2, Hps, Hrun.
  subst fref1 fref2.
  destruct dp as [[|p ps]|]; try contradiction.
  destruct dr as [[|]|]; try discriminate Hrun. reflexivity.
Qed.

Lemma two_stops_bank_the_segment_once_witness :
  commit at_200 (act ToggleTimer form_filled at_160 (Some started_record))
    (handleToggleTimer (synced form_second (Some started_record)) at_200)
  = act ToggleTimer form_second at_200 (Some started_record).
Proof.
  apply (two_stops_bank_the_segment_once started_record form_filled
           form_second meeting meeting at_160 at_200);
    [reflexivity | reflexivity | discriminate | reflexivity].
Defined.

(** ** How the registry calls compose *)

Lemma falsy_false (s : string) : falsy s = false <-> s <> "".
Proof. destruct s; simpl; split; intros H; congruence. Qed.

Lemma own_property_not_empty (r : Z) (k : string) :
  own_property k JOB_ROLES = Some r -> k <> "".
Proof. intros Hown ->. discriminate Hown. Qed.

Lemma valid_add_request (l : Local) (env : Env) (r : Z) (ref : DocRef) :
  trim (newName l) <> "" ->
  own_property (newRole l) JOB_ROLES = Some r ->
  meetingDocRef l = Some ref ->
  fst (handleAddParticipant l env)
  = SetDoc (Some ref)
      {| data_participants :=
           Some (participants l
                 ++ [ {| id := Date_now env; name := trim (newName l);
                         role := newRole l; rate := r |} ])%list;
         data_isRunning := None;
         data_accumulatedSeconds := None;
         data_startTime := None |} true
  /\ newName (snd (handleAddParticipant l env)) = "".
Proof.
  intros Hname Hown Href. unfold handleAddParticipant.
  apply falsy_false in Hname.
  pose proof (own_property_not_empty r _ Hown) as Hrole.
  apply falsy_false in Hrole.
  rewrite Hname, Hrole, Href. unfold JOB_ROLES_get. rewrite Hown.
  split; reflexivity.
Qed.

Lemma add_request_is_valid (l : Local) (env : Env) (ref : option DocRef)
    (data : DocData) (m : bool) :
  fst (handleAddParticipant l env) = SetDoc ref data m ->
  trim (newName l) <> ""
  /\ (exists r : Z, own_property (newRole l) JOB_ROLES = Some r)
  /\ meetingDocRef l <> None.
Proof.
  intros Heff. unfold handleAddParticipant in Heff.
  destruct (falsy (trim (newName l))) eqn:Hname; [discriminate Heff|].
  destruct (falsy (newRole l)) eqn:Hrole; [discriminate Heff|].
  destruct (meetingDocRef l) as [ref'|]; [|discriminate Heff].
  simpl in Heff. unfold JOB_ROLES_get in Heff.
  destruct (own_property (newRole l) JOB_ROLES) as [r|] eqn:Hown.
  - split; [apply falsy_false; exact Hname|].
    split; [exists r; reflexivity | discriminate].
  - destruct (inherited_property (newRole l)); discriminate Heff.
Qed.

(** The add handler writes exactly when the name is not blank, the role is
    a key of [JOB_ROLES] and the document reference is set; it then appends
    one participant to the sequence it holds -- the clock reading as id, the
    trimmed name, the role and its rate from the table -- and names no other
    field.  The name of the form is cleared when the awaited write has
    resolved, and the local state is untouched while the write is pending
    or when it is rejected. *)
Theorem add_writes_iff_the_form_is_valid :
  forall (l : Local) (env : Env),
    ((exists ref data m,
         fst (handleAddParticipant l env) = SetDoc ref data m)
     <-> (trim (newName l) <> ""
          /\ (exists r : Z, own_property (newRole l) JOB_ROLES = Some r)
          /\ meetingDocRef l <> None))
    /\ forall (r : Z) (ref : DocRef),
        trim (newName l) <> "" ->
        own_property (newRole l) JOB_ROLES = Some r ->
        meetingDocRef l = Some ref ->
        (forall outcome : WriteOutcome,
            fst (handleAddParticipant_settled l env outcome)
            = SetDoc (Some ref)
                {| data_participants :=
                     Some (participants l
                           ++ [ {| id := Date_now env;
                                   name := trim (newName l);
                                   role := newRole l; rate := r |} ])%list;
                   data_isRunning := None;
                   data_accumulatedSeconds := None;
                   data_startTime := None |} true)
        /\ snd (handleAddParticipant_settled l env Resolved)
           = {| meetingDocRef := meetingDocRef l;
                participants := participants l;
                isRunning := isRunning l;
                accumulatedSeconds := accumulatedSeconds l;
                startTime := startTime l;
                newName := "";
                newRole := newRole l |}
        /\ snd (handleAddParticipant_settled l env Rejected) = l
        /\ snd (handleAddParticipant_settled l env Pending) = l.
Proof.
  intros l env. split.
  - split.
    + intros (ref & data & m & Heff).
      apply (add_request_is_valid l env ref data m Heff).
    + intros (Hname & (r & Hown) & Href).
      destruct (meetingDocRef l) as [ref|] eqn:Href'; [|contradiction].
      destruct (valid_add_request l env r ref Hname Hown Href') as [Heff _].
      eauto.
  - intros r ref Hname Hown Href.
    destruct (valid_add_request l env r ref Hname Hown Href) as [Heff _].
    split; [intros [| |]; simpl; exact Heff|].
    split; [|split; reflexivity].
    simpl. unfold handleAddParticipant.
    apply falsy_false in Hname.
    pose proof (own_property_not_empty r _ Hown) as Hrole.
    apply falsy_false in Hrole.
    rewrite Hname, Hrole, Href. unfold JOB_ROLES_get. rewrite Hown.
    reflexivity.
Qed.

(** Two clients that both saw the same record and both add a participant:
    the second write replaces the first, and the participant of the first
    client is not in the record. *)
Theorem two_adds_keep_only_the_second :
  forall (d : Doc) (form1 form2 : Local) (ref1 ref2 : DocRef) (r1 r2 : Z)
         (env1 env2 : Env),
    meetingDocRef form1 = Some ref1 ->
    meetingDocRef form2 = Some ref2 ->
    trim (newName form1) <> "" ->
    trim (newName form2) <> "" ->
    own_property (newRole form1) JOB_ROLES = Some r1 ->
    own_property (newRole form2) JOB_ROLES = Some r2 ->
    record_participants
      (commit env2 (act AddParticipant form1 env1 (Some d))
         (request AddParticipant (synced form2 (Some d)) env2))
    = (record_participants (Some d)
       ++ [ {| id := Date_now env2; name := trim (newName form2);
               role := newRole form2; rate := r2 |} ])%list.
Proof.
  intros d form1 form2 ref1 ref2 r1 r2 env1 env2
         Href1 Href2 Hname1 Hname2 Hown1 Hown2.
  unfold act. cbn [request].
  destruct (valid_add_request (synced form1 (Some d)) env1 r1 ref1
              Hname1 Hown1 Href1) as [-> _].
  destruct (valid_add_request (synced form2 (Some d)) env2 r2 ref2
              Hname2 Hown2 Href2) as [-> _].
  reflexivity.
Qed.

Lemma two_adds_keep_only_the_second_witness :
  record_participants
    (commit at_200 (act AddParticipant form_filled at_160 (Some defaultSessionRecord))
       (request AddParticipant (synced form_second (Some defaultSessionRecord))
          at_200))
  = (record_participants (Some defaultSessionRecord)
     ++ [ {| id := Date_now at_200; name := trim (newName form_second);
             role := newRole form_second; rate := 175 |} ])%list.
Proof.
  apply (two_adds_keep_only_the_second defaultSessionRecord form_filled
           form_second meeting meeting 90 175 at_160 at_200);
    try reflexivity; discriminate.
Defined.

Lemma filter_out_appended (i : Z) (ps : list Participant) (p : Participant) :
  ~ In i (ids ps) -> id p = i ->
  filter (fun q => negb (id q =? i)) (ps ++ [p]) = ps.
Proof.
  intros Hfresh Hid. rewrite filter_app, (filter_other_ids i ps Hfresh).
  simpl. rewrite Hid, Z.eqb_refl. simpl. apply app_nil_r.
Qed.

(** An add and then the removal of the new id, each by a client in sync:
    when the clock reading was not an id of the record already, the
    participants are as they were before the add. *)
Theorem add_then_remove :
  forall (d : Doc) (form : Local) (ref : DocRef) (r : Z) (env env' : Env),
    meetingDocRef form = Some ref ->
    trim (newName form) <> "" ->
    own_property (newRole form) JOB_ROLES = Some r ->
    ~ In (Date_now env) (ids (record_participants (Some d))) ->
    record_participants
      (act (RemoveParticipant (Date_now env)) form env'
         (act AddParticipant form env (Some d)))
    = record_participants (Some d).
Proof.
  intros d form ref r env env' Href Hname Hown Hfresh.
  unfold act at 2. cbn [request].
  destruct (valid_add_request (synced form (Some d)) env r ref
              Hname Hown Href) as [-> _].
  unfold act, request, handleRemoveParticipant. simpl.
  rewrite Href. simpl.
  apply filter_out_appended; [exact Hfresh | reflexivity].
Qed.

Lemma add_then_remove_witness :
  record_participants
    (act (RemoveParticipant (Date_now at_200)) form_second at_200
       (act AddParticipant form_second at_200 (Some started_record)))
  = record_participants (Some started_record).
Proof.
  apply (add_then_remove started_record form_second meeting 175 at_200 at_200);
    try reflexivity; try discriminate.
  simpl. intros [H|[]]. discriminate H.
Defined.

Lemma filter_in_order (keep : Participant -> bool) (ps : list Participant) :
  in_order (filter keep ps) ps.
Proof.
  induction ps as [|p ps IH]; simpl; [constructor|].
  destruct (keep p); constructor; exact IH.
Qed.

Lemma in_order_length (kept whole : list Participant) :
  in_order kept whole -> (List.length kept <= List.length whole)%nat.
Proof. induction 1; simpl; lia. Qed.

Lemma in_order_same_length (kept whole : list Participant) :
  in_order kept whole -> List.length kept = List.length whole -> kept = whole.
Proof.
  induction 1 as [|p kept whole _ IH|p kept whole Hin _]; simpl; intros Hlen.
  - reflexivity.
  - f_equal. apply IH. lia.
  - apply in_order_length in Hin. lia.
Qed.

Lemma in_order_filter (keep : Participant -> bool)
    (kept whole : list Participant) :
  in_order kept whole ->
  (forall p, In p kept -> keep p = true) ->
  in_order kept (filter keep whole).
Proof.
  induction 1 as [|p kept whole _ IH|p kept whole _ IH]; simpl; intros Hkeep.
  - constructor.
  - rewrite (Hkeep p) by (left; reflexivity).
    constructor. apply IH. intros q Hq. apply Hkeep. right. exact Hq.
  - destruct (keep p); [constructor|]; apply IH; exact Hkeep.
Qed.

(** Removal by id writes the participants whose id differs from the given
    one, all of them and in their order: the written sequence is the local
    one with participants left out, none of its ids is the given one, as
    many are left out as have that id, and it is the only sequence of which
    all this is true; one participant goes when the ids are distinct and
    the id is there. *)
Theorem remove_takes_out_every_participant_with_the_id :
  forall (l : Local) (i : Z),
    exists ps' : list Participant,
      handleRemoveParticipant l i
      = SetDoc (meetingDocRef l)
          {| data_participants := Some ps';
             data_isRunning := None;
             data_accumulatedSeconds := None;
             data_startTime := None |} true
      /\ in_order ps' (participants l)
      /\ (forall p : Participant,
             In p ps' <-> In p (participants l) /\ id p <> i)
      /\ ~ In i (ids ps')
      /\ (List.length ps'
          + List.length (filter (fun p => (id p =? i)%Z) (participants l))
          = List.length (participants l))%nat
      /\ (forall qs : list Participant,
             in_order qs (participants l) ->
             ~ In i (ids qs) ->
             List.length qs = List.length ps' ->
             qs = ps')
      /\ (NoDup (ids (participants l)) -> In i (ids (participants l)) ->
          S (List.length ps') = List.length (participants l)).
Proof.
  intros l i. eexists; split; [reflexivity|].
  assert (Hspec : forall p : Participant,
             In p (filter (fun q => negb (id q =? i)) (participants l))
             <-> In p (participants l) /\ id p <> i).
  { intros p. rewrite filter_In.
    destruct (Z.eqb_spec (id p) i); simpl; intuition congruence. }
  split; [apply filter_in_order|].
  split; [exact Hspec|]. split; [|split; [|split]].
  - unfold ids. intros Hin. apply in_map_iff in Hin.
    destruct Hin as (p & Hid & Hp). apply Hspec in Hp. tauto.
  - clear Hspec. induction (participants l) as [|p ps IH]; simpl;
      [reflexivity|].
    destruct (id p =? i); simpl; lia.
  - intros qs Horder Hfree Hlen.
    apply in_order_same_length; [|exact Hlen].
    apply in_order_filter; [exact Horder|].
    intros q Hq. destruct (Z.eqb_spec (id q) i) as [Heq|Hneq]; [|reflexivity].
    exfalso. apply Hfree. unfold ids. apply in_map_iff. exists q. tauto.
  - clear Hspec.
    induction (participants l) as [|p ps IH]; simpl; intros Hnodup Hin;
      [contradiction|].
    inversion Hnodup as [|x xs Hnotin Hrest]; subst.
    destruct (Z.eqb_spec (id p) i) as [Heq|Hneq]; simpl.
    + subst i. rewrite (filter_other_ids (id p) ps Hnotin). reflexivity.
    + f_equal. apply IH; [exact Hrest|].
      destruct Hin as [Hin|Hin]; [contradiction | exact Hin].
Qed.

(** A record that a merge-write created holds only the fields written: an
    add on a session that has no record yet leaves a record with the
    participants alone, which every client reads as stopped, with nothing
    accumulated and no anchor, and on which the first start then works. *)
Theorem add_before_the_record_exists :
  forall (form : Local) (ref : DocRef) (r : Z) (env env' : Env),
    meetingDocRef form = Some ref ->
    trim (newName form) <> "" ->
    own_property (newRole form) JOB_ROLES = Some r ->
    let ps := (participants form
               ++ [ {| id := Date_now env; name := trim (newName form);
                       role := newRole form; rate := r |} ])%list in
    let s := commit env None (request AddParticipant form env) in
    s = Some {| doc_participants := Some ps;
                doc_isRunning := None;
                doc_accumulatedSeconds := None;
                doc_startTime := None |}
    /\ isRunning (synced form s) = false
    /\ accumulatedSeconds (synced form s) = 0
    /\ startTime (synced form s) = None
    /\ act ToggleTimer form env' s
       = Some {| doc_participants := Some ps;
                 doc_isRunning := Some true;
                 doc_accumulatedSeconds := None;
                 doc_startTime := Some (Some (server_time env')) |}.
Proof.
  intros form ref r env env' Href Hname Hown ps s.
  destruct (valid_add_request form env r ref Hname Hown Href) as [Heff _].
  subst s. cbn [request]. rewrite Heff. fold ps. simpl.
  split; [reflexivity|]. repeat split.
  unfold act, synced, request, handleToggleTimer. simpl.
  assert (Hps : ps <> []).
  { subst ps. destruct (participants form); discriminate. }
  destruct ps as [|q qs]; [contradiction|].
  rewrite Href. reflexivity.
Qed.

Lemma add_before_the_record_exists_witness :
  act ToggleTimer form_filled at_200
    (commit at_160 None (request AddParticipant form_filled at_160))
  = Some {| doc_participants := Some [engineer 160000];
            doc_isRunning := Some true;
            doc_accumulatedSeconds := None;
            doc_startTime := Some (Some (mkTimestamp 200 0)) |}.
Proof.
  apply (add_before_the_record_exists form_filled meeting 90 at_160 at_200);
    try reflexivity; discriminate.
Defined.

(** ** Trimming *)

Lemma string_of_list_ascii_app (l1 l2 : list ascii) :
  string_of_list_ascii (l1 ++ l2)
  = string_of_list_ascii l1 ++ string_of_list_ascii l2.
Proof. induction l1 as [|c l1 IH]; simpl; [reflexivity | rewrite IH; reflexivity]. Qed.

Lemma list_ascii_of_string_app (s1 s2 : string) :
  list_ascii_of_string (s1 ++ s2)
  = (list_ascii_of_string s1 ++ list_ascii_of_string s2)%list.
Proof. induction s1 as [|c s1 IH]; simpl; [reflexivity | rewrite IH; reflexivity]. Qed.

Lemma reverse_involutive (s : string) : reverse (reverse s) = s.
Proof.
  unfold reverse.
  rewrite list_ascii_of_string_of_list_ascii, rev_involutive.
  apply string_of_list_ascii_of_string.
Qed.

Lemma reverse_cons (c : ascii) (s : string) :
  reverse (String c s) = reverse s ++ String c "".
Proof.
  unfold reverse. simpl. rewrite string_of_list_ascii_app. reflexivity.
Qed.

Lemma reverse_snoc (c : ascii) (s : string) :
  reverse (s ++ String c "") = String c (reverse s).
Proof.
  unfold reverse. rewrite list_ascii_of_string_app, rev_app_distr. reflexivity.
Qed.

Lemma trimStart_idempotent (s : string) : trimStart (trimStart s) = trimStart s.
Proof.
  induction s as [|c s IH]; simpl; [reflexivity|].
  destruct (isWhiteSpace c) eqn:Hc; [exact IH|].
  simpl. rewrite Hc. reflexivity.
Qed.

Lemma trimStart_head (s : string) :
  trimStart s = ""
  \/ exists c t, trimStart s = String c t /\ isWhiteSpace c = false.
Proof.
  induction s as [|c s IH]; simpl; [left; reflexivity|].
  destruct (isWhiteSpace c) eqn:Hc; [exact IH|].
  right. exists c, s. split; [reflexivity | exact Hc].
Qed.

Lemma trimStart_keeps_last (c : ascii) (s : string) :
  isWhiteSpace c = false ->
  exists t, trimStart (s ++ String c "") = t ++ String c "".
Proof.
  intros Hc. induction s as [|a s IH]; simpl.
  - rewrite Hc. exists "". reflexivity.
  - destruct (isWhiteSpace a); [exact IH|].
    exists (String a s). reflexivity.
Qed.

Lemma trimEnd_keeps_head (c : ascii) (s : string) :
  isWhiteSpace c = false ->
  exists t, trimEnd (String c s) = String c t.
Proof.
  intros Hc. unfold trimEnd. rewrite reverse_cons.
  destruct (trimStart_keeps_last c (reverse s) Hc) as [t ->].
  rewrite reverse_snoc. eexists. reflexivity.
Qed.

Lemma trimEnd_idempotent (s : string) : trimEnd (trimEnd s) = trimEnd s.
Proof.
  unfold trimEnd. rewrite reverse_involutive, trimStart_idempotent. reflexivity.
Qed.

Lemma trimStart_trim (s : string) : trimStart (trim s) = trim s.
Proof.
  unfold trim.
  destruct (trimStart_head s) as [-> | (c & t & -> & Hc)]; [reflexivity|].
  destruct (trimEnd_keeps_head c t Hc) as [t' ->].
  simpl. rewrite Hc. reflexivity.
Qed.

(** [trim] is idempotent, and what it returns neither starts nor ends with
    white space. *)
Lemma trim_idempotent (s : string) : trim (trim s) = trim s.
Proof.
  unfold trim at 1. rewrite trimStart_trim.
  unfold trim. apply trimEnd_idempotent.
Qed.

(** ** What a session keeps true of its participants *)

Lemma synced_client_participants (ref : option DocRef) (n r : string)
    (seen : Store) :
  participants (synced (client ref n r) seen) = record_participants seen.
Proof. destruct seen; reflexivity. Qed.

Lemma record_participants_setDoc (env : Env) (s : Store) (data : DocData)
    (m : bool) :
  record_participants (setDoc env s data m)
  = match data_participants data with
    | Some ps => ps
    | None => if m then record_participants s else []
    end.
Proof.
  destruct data as [dp dr da dt], m, dp, s; reflexivity.
Qed.

Lemma table_rates (k : string) (r : Z) :
  own_property k JOB_ROLES = Some r -> 35 <= r <= 250.
Proof.
  unfold JOB_ROLES. simpl.
  repeat (match goal with
          | |- (if ?b then _ else _) = _ -> _ => destruct b
          end;
          [intros Heq; injection Heq as <-; lia|]).
  discriminate.
Qed.

Lemma added_participant_from_the_form (l : Local) (env : Env)
    (ref : option DocRef) (data : DocData) (m : bool) :
  fst (handleAddParticipant l env) = SetDoc ref data m ->
  exists p : Participant,
    data_participants data = Some (participants l ++ [p])%list
    /\ from_the_form p.
Proof.
  intros Heff.
  destruct (add_request_is_valid l env ref data m Heff)
    as (Hname & (r & Hown) & Href).
  destruct (meetingDocRef l) as [ref'|] eqn:Href'; [|contradiction].
  destruct (valid_add_request l env r ref' Hname Hown Href') as [Heff' _].
  rewrite Heff' in Heff. injection Heff as _ <- _.
  eexists; split; [reflexivity|].
  unfold from_the_form; simpl.
  split; [exact Hname|]. split; [apply trim_idempotent | exact Hown].
Qed.

(** In every record of a session -- clients that mirror a snapshot, current
    or stale, and call any handler -- every participant has a name that is
    not blank and has no white space around it, a role that is a key of
    [JOB_ROLES], and the hourly rate the table gives that role, between 35
    and 250. *)
Theorem session_participants_come_from_the_form :
  forall s : Store,
    session s ->
    Forall (fun p => from_the_form p /\ 35 <= rate p <= 250)
      (record_participants s).
Proof.
  assert (Hweak : forall s : Store,
             session s -> Forall from_the_form (record_participants s)).
  { intros s Hs.
    induction Hs as [|s seen c ref n r env _ IHs _ IHseen]; [constructor|].
    remember (synced (client ref n r) seen) as l eqn:Hl.
    assert (Hlps : participants l = record_participants seen).
    { subst l. apply synced_client_participants. }
    destruct (request c l env) as [|[ref'|] data m|e] eqn:Hreq; simpl;
      try exact IHs.
    rewrite record_participants_setDoc.
    destruct c as [| | |i|docSnap]; simpl in Hreq.
    - unfold handleToggleTimer in Hreq.
      destruct (participants l); [discriminate Hreq|].
      destruct (isRunning l); injection Hreq as _ <- <-; exact IHs.
    - injection Hreq as _ <- <-. constructor.
    - destruct (added_participant_from_the_form l env _ _ _ Hreq)
        as (p & -> & Hp).
      rewrite Hlps. apply Forall_app. split; [exact IHseen|].
      constructor; [exact Hp | constructor].
    - injection Hreq as _ <- <-. simpl. rewrite Hlps.
      apply Forall_forall. intros p Hp. apply filter_In in Hp.
      rewrite Forall_forall in IHseen. apply IHseen. tauto.
    - subst l. destruct docSnap; simpl in Hreq; [discriminate Hreq|].
      injection Hreq as _ <- <-. constructor. }
  intros s Hs. specialize (Hweak s Hs).
  rewrite Forall_forall in *. intros p Hp. split; [apply Hweak; exact Hp|].
  destruct (Hweak p Hp) as (_ & _ & Hown).
  apply (table_rates (role p)). exact Hown.
Qed.

Lemma session_with_ada_is_a_session : session session_with_ada.
Proof.
  unfold session_with_ada.
  apply session_call.
  - apply session_call; apply session_absent.
  - change (Some defaultSessionRecord)
      with (commit at_160 None
              (request (Snapshot None)
                 (synced (client (Some meeting) "" "") None) at_160)).
    apply session_call; apply session_absent.
Qed.

Lemma session_participants_come_from_the_form_witness :
  record_participants session_with_ada = [engineer 160000]
  /\ Forall (fun p => from_the_form p /\ 35 <= rate p <= 250)
       (record_participants session_with_ada).
Proof.
  split; [reflexivity|].
  apply (session_participants_come_from_the_form session_with_ada
           session_with_ada_is_a_session).
Defined.

(** ** The cost over time *)

Lemma spec_totalCost_linear (ps : list Participant) (e : Z) :
  (spec_totalCost ps e == spec_totalCost ps 1 * inject_Z e)%Q.
Proof.
  induction ps as [|p ps IH]; simpl; [ring|].
  rewrite IH. unfold spec_perParticipantCost.
  change (inject_Z 1) with 1%Q. ring.
Qed.

Lemma rate_per_second_nonnegative (ps : list Participant) :
  Forall (fun p => 0 <= rate p) ps -> (0 <= spec_totalCost ps 1)%Q.
Proof.
  induction 1 as [|p ps Hp _ IH]; simpl; [apply Qle_refl|].
  apply (Qplus_le_compat 0 _ 0); [|exact IH].
  unfold spec_perParticipantCost. change (inject_Z 1) with 1%Q.
  rewrite Qmult_1_r. apply Qle_shift_div_l; [reflexivity|].
  rewrite Qmult_0_l. rewrite <- (Zle_Qle 0). exact Hp.
Qed.

Lemma totalCost_by_rate (l : Local) (env : Env) :
  (totalCost (calculateCosts (N := Q) l env)
   == spec_totalCost (participants l) 1
      * inject_Z (elapsedSeconds (calculateCosts (N := Q) l env)))%Q.
Proof.
  rewrite <- spec_totalCost_linear.
  unfold calculateCosts; simpl.
  rewrite total_rate_times_elapsed. ring.
Qed.

(** While the timer runs and the local clock does not go back, neither the
    elapsed seconds nor the total cost decrease (rates being non-negative,
    costs read as exact rationals). *)
Theorem cost_grows_with_the_local_clock :
  forall (l : Local) (a : Timestamp) (env env' : Env),
    isRunning l = true ->
    startTime l = Some a ->
    Forall (fun p => 0 <= rate p) (participants l) ->
    Date_now env <= Date_now env' ->
    elapsedSeconds (calculateCosts (N := Q) l env)
    <= elapsedSeconds (calculateCosts (N := Q) l env')
    /\ (totalCost (calculateCosts (N := Q) l env)
        <= totalCost (calculateCosts (N := Q) l env'))%Q.
Proof.
  intros l a env env' Hrun Hanchor Hrates Hclock.
  assert (Helapsed : elapsedSeconds (calculateCosts (N := Q) l env)
                     <= elapsedSeconds (calculateCosts (N := Q) l env')).
  { unfold calculateCosts; simpl. rewrite Hrun, Hanchor.
    pose proof (Z.div_le_mono (Date_now env) (Date_now env') 1000). lia. }
  split; [exact Helapsed|].
  rewrite !totalCost_by_rate.
  rewrite !(Qmult_comm (spec_totalCost (participants l) 1)).
  apply Qmult_le_compat_r; [|apply rate_per_second_nonnegative; exact Hrates].
  rewrite <- Zle_Qle. exact Helapsed.
Qed.

Lemma cost_grows_with_the_local_clock_witness :
  elapsedSeconds (calculateCosts (N := Q) running_meeting at_160)
  <= elapsedSeconds (calculateCosts (N := Q) running_meeting at_161)
  /\ (totalCost (calculateCosts (N := Q) running_meeting at_160)
      <= totalCost (calculateCosts (N := Q) running_meeting at_161))%Q.
Proof.
  apply (cost_grows_with_the_local_clock running_meeting (mkTimestamp 100 0)
           at_160 at_161); try reflexivity.
  - repeat constructor. simpl. lia.
  - simpl. lia.
Defined.

(** While the timer runs, 1000 milliseconds more on the local clock are
    exactly one elapsed second more, wherever in its second the clock is,
    in the arithmetic of the code as in any reading of the numbers. *)
Theorem one_tick_later :
  forall (N : Type) (num : Number N) (l : Local) (a : Timestamp)
         (env env' : Env),
    isRunning l = true ->
    startTime l = Some a ->
    Date_now env' = Date_now env + 1000 ->
    elapsedSeconds (calculateCosts (N := N) l env')
    = elapsedSeconds (calculateCosts (N := N) l env) + 1.
Proof.
  intros N num l a env env' Hrun Hanchor Hclock.
  unfold calculateCosts; simpl. rewrite Hrun, Hanchor, Hclock.
  replace (Date_now env + 1000) with (Date_now env + 1 * 1000) by lia.
  rewrite Z.div_add by lia. lia.
Qed.

Lemma one_tick_later_witness :
  elapsedSeconds (calculateCosts (N := float) running_meeting at_161)
  = elapsedSeconds (calculateCosts (N := float) running_meeting at_160) + 1.
Proof.
  apply (one_tick_later float Number_float running_meeting
           (mkTimestamp 100 0) at_160 at_161);
    reflexivity.
Defined.

(** While the timer is stopped, or has no anchor, the clock plays no part:
    the elapsed seconds are the accumulated ones, and both derived values
    are the same at any two instants, in either reading of the numbers. *)
Theorem stopped_display_is_frozen :
  forall (N : Type) (num : Number N) (l : Local) (env env' : Env),
    isRunning l = false \/ startTime l = None ->
    calculateCosts (N := N) l env = calculateCosts (N := N) l env'
    /\ elapsedSeconds (calculateCosts (N := N) l env) = accumulatedSeconds l.
Proof.
  intros N num l env env' Hstopped. unfold calculateCosts.
  destruct (isRunning l), (startTime l);
    try (split; reflexivity).
  destruct Hstopped; discriminate.
Qed.

Lemma stopped_display_is_frozen_witness :
  calculateCosts (N := float) stopped_meeting at_160
  = calculateCosts (N := float) stopped_meeting at_200
  /\ elapsedSeconds (calculateCosts (N := float) stopped_meeting at_160)
     = accumulatedSeconds stopped_meeting.
Proof.
  apply (stopped_display_is_frozen float Number_float stopped_meeting
           at_160 at_200).
  left. reflexivity.
Defined.

(** ** Initialisation *)

Section InitialisationFacts.
Variable Config : Type.
Variable JSON_parse : string -> Parsed Config.
Variable firebase_throws : Config -> list string -> bool.

(** Without a configuration in the environment the initialisation never
    connects and never throws: it ends with one of its three messages,
    whatever the Teams SDK answers. *)
Theorem no_configuration_no_connection :
  forall (teams : TeamsContext) (penv : ProcessEnv),
    truthy_string (REACT_APP_FIREBASE_CONFIG penv) = None ->
    initialize Config JSON_parse firebase_throws teams penv
    = Failed
        match teams with
        | SdkRejects | NoMeeting =>
            "Failed to initialize. Firebase config missing."
        | InMeeting meetingId =>
            match truthy_string meetingId with
            | None => "This app can only be run in a Teams meeting."
            | Some _ => "Firebase configuration is missing."
            end
        end.
Proof.
  intros teams penv Hmissing.
  unfold initialize, fallback, firebaseConfig. rewrite Hmissing.
  destruct teams as [| |meetingId]; try reflexivity.
  destruct (truthy_string meetingId); reflexivity.
Qed.

(** When the initialisation connects, it is to the document of the meeting
    Teams named, under the application id of the environment or
    [default-app-id]; or else to the document of the test meeting, which is
    where every failure before that point leads: no Teams SDK, no meeting in
    the context, a configuration that did not parse at first, or Firebase
    refusing the meeting's document. *)
Theorem connects_to_the_meeting_or_the_test_meeting :
  forall (teams : TeamsContext) (penv : ProcessEnv) (ref : DocRef),
    initialize Config JSON_parse firebase_throws teams penv
    = Connected ref ->
    exists (config : Config) (meetingId : string),
      firebaseConfig Config JSON_parse penv = Value config
      /\ firebase_throws config (docPath penv meetingId) = false
      /\ ref = "artifacts/" ++ appId penv ++ "/public/data/meetings/" ++ meetingId
      /\ (meetingId = testMeetingId
          \/ (meetingId <> "" /\ teams = InMeeting (Some meetingId))).
Proof.
  intros teams penv ref.
  assert (Hfallback : fallback Config JSON_parse firebase_throws penv
                      = Connected ref ->
            exists (config : Config) (meetingId : string),
              firebaseConfig Config JSON_parse penv = Value config
              /\ firebase_throws config (docPath penv meetingId) = false
              /\ ref = "artifacts/" ++ appId penv
                       ++ "/public/data/meetings/" ++ meetingId
              /\ (meetingId = testMeetingId
                  \/ (meetingId <> "" /\ teams = InMeeting (Some meetingId)))).
  { unfold fallback.
    destruct (firebaseConfig Config JSON_parse penv) as [| |config];
      try discriminate.
    destruct (firebase_throws config (docPath penv testMeetingId)) eqn:Hfb;
      [discriminate|].
    intros Heq. injection Heq as <-.
    exists config, testMeetingId. repeat split; auto. }
  unfold initialize.
  destruct teams as [| |[meetingId|]]; try exact Hfallback;
    [|discriminate].
  unfold truthy_string.
  destruct (falsy meetingId) eqn:Hid; [discriminate|].
  destruct (firebaseConfig Config JSON_parse penv) as [| |config] eqn:Hcfg;
    [exact Hfallback | discriminate |].
  destruct (firebase_throws config (docPath penv meetingId)) eqn:Hfb;
    [exact Hfallback|].
  intros Heq. injection Heq as <-.
  exists config, meetingId. repeat split; auto.
  right. split; [|reflexivity].
  intros ->. discriminate Hid.
Qed.

(** Outside a meeting -- the SDK rejects, or the context has no meeting --
    the initialisation does not report it: with a configuration that
    Firebase accepts it connects to the test meeting. *)
Theorem outside_a_meeting_the_test_meeting_is_used :
  forall (teams : TeamsContext) (penv : ProcessEnv) (config : Config),
    teams = SdkRejects \/ teams = NoMeeting ->
    firebaseConfig Config JSON_parse penv = Value config ->
    firebase_throws config (docPath penv testMeetingId) = false ->
    initialize Config JSON_parse firebase_throws teams penv
    = Connected ("artifacts/" ++ appId penv
                 ++ "/public/data/meetings/test-meeting-no-auth").
Proof.
  intros teams penv config Hteams Hcfg Hfb.
  unfold initialize, fallback.
  destruct Hteams as [-> | ->]; rewrite Hcfg, Hfb; reflexivity.
Qed.

(** The message about Teams meetings is shown exactly when the context has
    a meeting whose id is missing or empty. *)
Theorem teams_message_iff_meeting_without_id :
  forall (teams : TeamsContext) (penv : ProcessEnv),
    initialize Config JSON_parse firebase_throws teams penv
    = Failed "This app can only be run in a Teams meeting."
    <-> exists meetingId : option string,
          teams = InMeeting meetingId /\ truthy_string meetingId = None.
Proof.
  intros teams penv.
  assert (Hfallback : fallback Config JSON_parse firebase_throws penv
                      <> Failed "This app can only be run in a Teams meeting.").
  { unfold fallback.
    destruct (firebaseConfig Config JSON_parse penv) as [| |config];
      try discriminate.
    destruct (firebase_throws config (docPath penv testMeetingId));
      discriminate. }
  unfold initialize. split.
  - destruct teams as [| |meetingId]; try (intros H; contradiction).
    destruct (truthy_string meetingId) as [m|] eqn:Hid; [|eauto].
    destruct (firebaseConfig Config JSON_parse penv) as [| |config];
      try (intros H; contradiction); try discriminate.
    destruct (firebase_throws config (docPath penv m));
      [intros H; contradiction | discriminate].
  - intros (meetingId & -> & ->). reflexivity.
Qed.

(** A configuration that [JSON.parse] rejects is parsed a second time in
    the [catch] block: the exception escapes, unless the meeting id was
    found missing before the configuration was read. *)
Theorem malformed_configuration_is_not_caught :
  forall (teams : TeamsContext) (penv : ProcessEnv),
    firebaseConfig Config JSON_parse penv = SyntaxError ->
    initialize Config JSON_parse firebase_throws teams penv
    = match teams with
      | InMeeting meetingId =>
          match truthy_string meetingId with
          | None => Failed "This app can only be run in a Teams meeting."
          | Some _ => Uncaught
          end
      | _ => Uncaught
      end.
Proof.
  intros teams penv Hcfg. unfold initialize, fallback.
  destruct teams as [| |meetingId]; rewrite ?Hcfg; try reflexivity.
  all: destruct (truthy_string meetingId); rewrite ?Hcfg; reflexivity.
Qed.

End InitialisationFacts.

Lemma no_configuration_no_connection_witness :
  initialize string parse_sample firebase_never_throws SdkRejects env_without_config
  = Failed "Failed to initialize. Firebase config missing.".
Proof.
  apply (no_configuration_no_connection string parse_sample firebase_never_throws
           SdkRejects env_without_config).
  reflexivity.
Defined.

Lemma connects_to_the_meeting_or_the_test_meeting_witness :
  exists (config : string) (meetingId : string),
    firebaseConfig string parse_sample env_with_config = Value config
    /\ firebase_never_throws config (docPath env_with_config meetingId) = false
    /\ "artifacts/default-app-id/public/data/meetings/MCMxOTptZWV0aW5n"
       = "artifacts/" ++ appId env_with_config ++ "/public/data/meetings/"
         ++ meetingId
    /\ (meetingId = testMeetingId
        \/ (meetingId <> ""
            /\ InMeeting (Some "MCMxOTptZWV0aW5n") = InMeeting (Some meetingId))).
Proof.
  apply (connects_to_the_meeting_or_the_test_meeting string parse_sample
           firebase_never_throws (InMeeting (Some "MCMxOTptZWV0aW5n"))
           env_with_config).
  reflexivity.
Defined.

Lemma outside_a_meeting_the_test_meeting_is_used_witness :
  initialize string parse_sample firebase_never_throws NoMeeting env_with_config
  = Connected "artifacts/default-app-id/public/data/meetings/test-meeting-no-auth".
Proof.
  apply (outside_a_meeting_the_test_meeting_is_used string parse_sample
           firebase_never_throws NoMeeting env_with_config "{}");
    [right; reflexivity | reflexivity | reflexivity].
Defined.

Lemma malformed_configuration_is_not_caught_witness :
  initialize string parse_sample firebase_never_throws
    (InMeeting (Some "MCMxOTptZWV0aW5n")) env_with_malformed_config
  = Uncaught.
Proof.
  apply (malformed_configuration_is_not_caught string parse_sample
           firebase_never_throws (InMeeting (Some "MCMxOTptZWV0aW5n"))
           env_with_malformed_config).
  reflexivity.
Defined.

(** ** The view *)

Lemma failure_message_not_empty (Config : Type)
    (JSON_parse : string -> Parsed Config)
    (firebase_throws : Config -> list string -> bool)
    (teams : TeamsContext) (penv : ProcessEnv) (message : string) :
  initialize Config JSON_parse firebase_throws teams penv = Failed message ->
  falsy message = false.
Proof.
  assert (Hfallback : fallback Config JSON_parse firebase_throws penv
                      = Failed message -> falsy message = false).
  { unfold fallback.
    destruct (firebaseConfig Config JSON_parse penv) as [| |config];
      try discriminate.
    - intros Heq. injection Heq as <-. reflexivity.
    - destruct (firebase_throws config (docPath penv testMeetingId));
        discriminate. }
  unfold initialize.
  destruct teams as [| |meetingId]; try exact Hfallback.
  destruct (truthy_string meetingId) as [m|].
  - destruct (firebaseConfig Config JSON_parse penv) as [| |config];
      try exact Hfallback.
    + intros Heq. injection Heq as <-. reflexivity.
    + destruct (firebase_throws config (docPath penv m));
        [exact Hfallback | discriminate].
  - intros Heq. injection Heq as <-. reflexivity.
Qed.

Lemma add_keeps_the_docRef (l : Local) (env : Env) (outcome : WriteOutcome) :
  meetingDocRef (snd (handleAddParticipant_settled l env outcome))
  = meetingDocRef l.
Proof.
  destruct outcome; simpl; try reflexivity.
  unfold handleAddParticipant.
  destruct (falsy (trim (newName l)) || falsy (newRole l)
            || match meetingDocRef l with None => true | Some _ => false end);
    [reflexivity|].
  destruct (JOB_ROLES_get (newRole l)); reflexivity.
Qed.

Lemma ui_step_shown_or_connected (u u' : Ui) :
  ui_step u u' -> shown_or_connected u -> shown_or_connected u'.
Proof.
  unfold shown_or_connected.
  intros Hstep Hu.
  destruct Hstep as [u Config parse throws teams penv|u ev|u n r|u env o].
  - destruct (initialize Config parse throws teams penv) as [ref|message|]
      eqn:Hinit; simpl.
    + right; right. discriminate.
    + right; left. exists message. split; [reflexivity|].
      apply (failure_message_not_empty _ _ _ _ _ _ Hinit).
    + exact Hu.
  - unfold listener.
    destruct (meetingDocRef (local u)) as [ref|] eqn:Href;
      [|simpl; rewrite Href; exact Hu].
    destruct ev as [docSnap|]; simpl.
    + right; right. destruct docSnap; simpl; rewrite Href; discriminate.
    + right; right. rewrite Href. discriminate.
  - exact Hu.
  - simpl. rewrite add_keeps_the_docRef. exact Hu.
Qed.

(** Out of the loading view with no error on display, the component holds a
    document reference: every call of a write handler from the meeting view
    has one. *)
Theorem meeting_view_has_a_document_reference :
  forall u : Ui,
    ui_reachable u ->
    render u = MeetingView ->
    exists ref : DocRef, meetingDocRef (local u) = Some ref.
Proof.
  intros u Hreach.
  assert (Hinv : shown_or_connected u).
  { induction Hreach as [|u u' _ IH Hstep].
    - left. reflexivity.
    - apply (ui_step_shown_or_connected u u' Hstep IH). }
  intros Hview. unfold render in Hview.
  destruct (isLoading u) eqn:Hloading; [discriminate Hview|].
  destruct Hinv as [Hl | [(message & Herr & Hmsg) | Href]].
  - congruence.
  - rewrite Herr in Hview. simpl in Hview. rewrite Hmsg in Hview.
    discriminate Hview.
  - destruct (meetingDocRef (local u)) as [ref|]; [eauto | contradiction].
Qed.

Lemma ui_in_meeting_reachable : ui_reachable ui_in_meeting.
Proof.
  unfold ui_in_meeting.
  eapply ui_next; [eapply ui_next; [apply ui_mounted|]|].
  - apply (step_initialised mounted string parse_sample firebase_never_throws
             SdkRejects env_with_config).
  - apply step_listener.
Qed.

Lemma meeting_view_has_a_document_reference_witness :
  render ui_in_meeting = MeetingView
  /\ exists ref : DocRef, meetingDocRef (local ui_in_meeting) = Some ref.
Proof.
  split; [reflexivity|].
  apply (meeting_view_has_a_document_reference ui_in_meeting
           ui_in_meeting_reachable).
  reflexivity.
Defined.

(** No step brings the loading view back, and none leaves the error view:
    the component never clears its error. *)
Theorem error_view_is_final :
  forall u u' : Ui,
    ui_step u u' ->
    (render u <> LoadingView -> render u' <> LoadingView)
    /\ (forall message : string,
           render u = ErrorView message ->
           exists message' : string, render u' = ErrorView message').
Proof.
  intros u u' Hstep.
  assert (Hcases : (isLoading u' = isLoading u /\ error u' = error u)
                   \/ (isLoading u' = false
                       /\ (error u' = error u
                           \/ exists m, error u' = Some m /\ falsy m = false))).
  { destruct Hstep as [u Config parse throws teams penv|u ev|u n r|u env o].
    - destruct (initialize Config parse throws teams penv) as [ref|message|]
        eqn:Hinit; simpl; auto.
      right. split; [reflexivity|]. right. exists message.
      split; [reflexivity|].
      apply (failure_message_not_empty _ _ _ _ _ _ Hinit).
    - unfold listener. destruct (meetingDocRef (local u)); [|auto].
      destruct ev; simpl; [auto|].
      right. split; [reflexivity|]. right. eexists. split; reflexivity.
    - auto.
    - auto. }
  unfold render.
  destruct Hcases as [[-> ->] | [-> [-> | (m & -> & Hm)]]].
  - split; [auto | eauto].
  - split; [destruct (truthy_string (error u)); discriminate|].
    intros message. destruct (isLoading u); [discriminate|]. eauto.
  - simpl. rewrite Hm. split; [discriminate | eauto].
Qed.

(** The listener fails while the meeting is on display. *)
Lemma error_view_is_final_witness :
  render ui_in_meeting <> LoadingView
  /\ render (fst (listener ui_in_meeting ListenerError))
     = ErrorView "Failed to connect to the database. Check your Firestore security rules."
  /\ exists message' : string,
       render (fst (listener (fst (listener ui_in_meeting ListenerError))
                      (Next (Some started_record))))
       = ErrorView message'.
Proof.
  split; [discriminate|]. split; [reflexivity|].
  destruct (error_view_is_final
              (fst (listener ui_in_meeting ListenerError))
              (fst (listener (fst (listener ui_in_meeting ListenerError))
                      (Next (Some started_record))))
              (step_listener _ _)) as [_ Hfinal].
  apply (Hfinal "Failed to connect to the database. Check your Firestore security rules.").
  reflexivity.
Defined.

(** ** First access *)

(** A client that is told the record does not exist writes the whole
    default record, without merge: whatever the record holds by the time the
    write is committed is replaced, and the client's local state is left as
    it was. *)
Theorem first_access_replaces_the_record :
  forall (l : Local) (ref : DocRef) (env : Env) (s : Store),
    meetingDocRef l = Some ref ->
    fst (onSnapshot l None) = l
    /\ snd (onSnapshot l None) = SetDoc (Some ref) emptyRecord false
    /\ commit env s (snd (onSnapshot l None)) = Some defaultSessionRecord
    /\ record_participants (commit env s (snd (onSnapshot l None))) = [].
Proof.
  intros l ref env s Href. simpl. rewrite Href. repeat split.
Qed.

Lemma first_access_replaces_the_record_witness :
  commit at_200 (Some started_record) (snd (onSnapshot form_filled None))
  = Some defaultSessionRecord.
Proof.
  apply (first_access_replaces_the_record form_filled meeting at_200
           (Some started_record)).
  reflexivity.
Defined.
